(** * Query deduplication and caching layer of the PHC assistant backend

    A shallow embedding of [backend/services/cache_service.py] and
    [backend/services/deduplication_service.py], followed by the
    properties of the two services.  Of their callers, [translate] of
    [backend/services/translation_service.py] is embedded with the
    model as a parameter, and the contents and keys that
    [save_chat_message] and the triage route build are embedded as they
    are written there.

    Conventions of the embedding.
    - A Python [str] is a [string]; a character stands for the code point
      of the same number (0..255).  A query content holds [None], [bool],
      [int] and [str] values.
    - A [datetime] is the number of microseconds since the epoch, a [Z];
      [timedelta(seconds=n)] is [1000000 * n].  The values of [datetime]
      range from [datetime_min] to [datetime_max], and the sum of a
      [datetime] and a [timedelta] outside this range raises
      [OverflowError].  The clock reads an instant of this range at
      least a day before its end ([clock_reading]); at such an instant
      [set] fails exactly when the source does.  A call of a public
      method is instantaneous: every [datetime.now()] inside it reads
      the instant [now] given to the call.
    - A Python [dict] whose iteration order is observed (the cache, the
      in-memory store of seen hashes) is an insertion-ordered association
      list; a [dict] that is only read by key (a query content) is a
      [gmap].
    - The module-level singletons [cache_service] and
      [deduplication_service] are the two fields of a [World] that the
      methods thread through.
    - The [except] branch of [set] is taken when the expiry overflows,
      that of [save_to_disk] when [open] fails; which names [open]
      accepts is a parameter of [save_to_disk], the empty name (the
      directory itself) being refused always.  No other operation of
      the embedded methods raises on these data.  Distinct file names
      denote distinct files, and a file written by [pickle.dump] is read
      back by [pickle.load] as it was. *)

From Stdlib Require Import ZArith QArith Ascii String DecimalString.
From stdpp Require Import base option list strings gmap sorting.

Local Open Scope Z_scope.

(** ** Python strings *)

Module PyStr.

Definition code (c : ascii) : Z := Z.of_N (N_of_ascii c).
Definition chr (n : Z) : ascii := ascii_of_N (Z.to_N n).

Definition dquote : ascii := Eval cbv in chr 34.
Definition backslash : ascii := Eval cbv in chr 92.

Definition is_empty (s : string) : bool :=
  match s with EmptyString => true | String _ _ => false end.

(** [c.isspace()] on the first 256 code points. *)
Definition isspace (c : ascii) : bool :=
  let n := code c in
  ((9 <=? n) && (n <=? 13)) || ((28 <=? n) && (n <=? 32))
  || (n =? 133) || (n =? 160).

(** [c.lower()] on the first 256 code points: [A-Z] and the accented
    capitals U+00C0..U+00DE, the multiplication sign U+00D7 apart. *)
Definition lower_char (c : ascii) : ascii :=
  let n := code c in
  if ((65 <=? n) && (n <=? 90))
     || ((192 <=? n) && (n <=? 222) && negb (n =? 215))
  then chr (n + 32) else c.

Fixpoint lower (s : string) : string :=
  match s with
  | EmptyString => EmptyString
  | String c s' => String (lower_char c) (lower s')
  end.

Fixpoint lstrip (s : string) : string :=
  match s with
  | EmptyString => EmptyString
  | String c s' => if isspace c then lstrip s' else s
  end.

Fixpoint rstrip (s : string) : string :=
  match s with
  | EmptyString => EmptyString
  | String c s' =>
      let r := rstrip s' in
      if isspace c && is_empty r then EmptyString else String c r
  end.

(** [s.strip()] *)
Definition strip (s : string) : string := rstrip (lstrip s).

(** [s.split()]: the maximal runs of characters that are not white
    space, in order. [word] is the run being read. *)
Fixpoint split_from (word s : string) : list string :=
  match s with
  | EmptyString => if is_empty word then [] else [word]
  | String c s' =>
      if isspace c
      then (if is_empty word then split_from EmptyString s'
            else word :: split_from EmptyString s')
      else split_from (word +:+ String c EmptyString) s'
  end.

Definition split (s : string) : list string := split_from EmptyString s.

(** [str(n)] and [json.dumps(n)] of an [int]. *)
Definition of_int (n : Z) : string := NilZero.string_of_int (Z.to_int n).

Definition hex_digit (d : Z) : ascii :=
  if d <? 10 then chr (48 + d) else chr (87 + d).

(** [width] hexadecimal digits of [n], most significant first. *)
Fixpoint hex (width : nat) (n : Z) : string :=
  match width with
  | O => EmptyString
  | S w => hex w (Z.shiftr n 4) +:+ String (hex_digit (Z.land n 15)) EmptyString
  end.

End PyStr.

(** ** [hashlib.sha256] *)

Module Sha256.

Definition w32 (x : Z) : Z := Z.land x 4294967295.
Definition add32 (x y : Z) : Z := w32 (x + y).
Definition rotr (n x : Z) : Z :=
  Z.lor (Z.shiftr x n) (w32 (Z.shiftl x (32 - n))).
Definition not32 (x : Z) : Z := Z.lxor x 4294967295.

Definition ch (x y z : Z) : Z :=
  Z.lxor (Z.land x y) (Z.land (not32 x) z).
Definition maj (x y z : Z) : Z :=
  Z.lxor (Z.lxor (Z.land x y) (Z.land x z)) (Z.land y z).
Definition bsig0 (x : Z) : Z :=
  Z.lxor (Z.lxor (rotr 2 x) (rotr 13 x)) (rotr 22 x).
Definition bsig1 (x : Z) : Z :=
  Z.lxor (Z.lxor (rotr 6 x) (rotr 11 x)) (rotr 25 x).
Definition ssig0 (x : Z) : Z :=
  Z.lxor (Z.lxor (rotr 7 x) (rotr 18 x)) (Z.shiftr x 3).
Definition ssig1 (x : Z) : Z :=
  Z.lxor (Z.lxor (rotr 17 x) (rotr 19 x)) (Z.shiftr x 10).

(** The first 64 primes, by trial division. *)
Definition is_prime (n : Z) : bool :=
  forallb (fun d => negb (n mod d =? 0)) (seqZ 2 (n - 2)).

Definition first_primes : list Z :=
  Eval vm_compute in List.filter is_prime (seqZ 2 310).

(** The integer cube root of [n < 2^(3 * bits)], one bit at a time. *)
Fixpoint cube_root_bits (bits : nat) (n root : Z) : Z :=
  match bits with
  | O => root
  | S b =>
      let candidate := root + 2 ^ Z.of_nat b in
      cube_root_bits b n (if candidate ^ 3 <=? n then candidate else root)
  end.

(** The first 32 bits of the fractional part of the cube root, and of
    the square root, of [p]. *)
Definition cube_root_fraction (p : Z) : Z :=
  w32 (cube_root_bits 40 (p * 2 ^ 96) 0).
Definition square_root_fraction (p : Z) : Z :=
  w32 (Z.sqrt (p * 2 ^ 64)).

Definition round_constants : list Z :=
  Eval vm_compute in map cube_root_fraction first_primes.

Record regs := Regs { ra : Z; rb : Z; rc : Z; rd : Z;
                      re : Z; rf : Z; rg : Z; rh : Z }.

Definition initial_hash : regs :=
  Eval vm_compute in
    let h := map square_root_fraction (take 8 first_primes) in
    Regs (nth 0 h 0) (nth 1 h 0) (nth 2 h 0) (nth 3 h 0)
         (nth 4 h 0) (nth 5 h 0) (nth 6 h 0) (nth 7 h 0).

Definition word_at (ws : list Z) (i : nat) : Z := nth i ws 0.

(** One round on the working variables with schedule word [w] and
    constant [k]. *)
Definition round (k w : Z) (r : regs) : regs :=
  let t1 := add32 (add32 (add32 (add32 (rh r) (bsig1 (re r)))
                            (ch (re r) (rf r) (rg r))) k) w in
  let t2 := add32 (bsig0 (ra r)) (maj (ra r) (rb r) (rc r)) in
  Regs (add32 t1 t2) (ra r) (rb r) (rc r) (add32 (rd r) t1) (re r) (rf r) (rg r).

(** The 64 rounds. [window] holds the sixteen schedule words
    [W_t .. W_(t+15)]; it slides by one word per round. *)
Fixpoint rounds (ks : list Z) (window : list Z) (r : regs) : regs :=
  match ks with
  | [] => r
  | k :: ks' =>
      let next := add32 (add32 (add32 (ssig1 (word_at window 14))
                                      (word_at window 9))
                               (ssig0 (word_at window 1)))
                        (word_at window 0) in
      rounds ks' (tl window ++ [next]) (round k (word_at window 0) r)
  end.

Definition compress (h : regs) (block : list Z) : regs :=
  let r := rounds round_constants block h in
  Regs (add32 (ra h) (ra r)) (add32 (rb h) (rb r))
       (add32 (rc h) (rc r)) (add32 (rd h) (rd r))
       (add32 (re h) (re r)) (add32 (rf h) (rf r))
       (add32 (rg h) (rg r)) (add32 (rh h) (rh r)).

(** Big-endian 32-bit words of a byte sequence whose length is a
    multiple of four. *)
Fixpoint words (bs : list Z) : list Z :=
  match bs with
  | b0 :: b1 :: b2 :: b3 :: bs' =>
      (Z.shiftl b0 24 + Z.shiftl b1 16 + Z.shiftl b2 8 + b3) :: words bs'
  | _ => []
  end.

Definition be_bytes (n : nat) (x : Z) : list Z :=
  map (fun i => Z.land (Z.shiftr x (8 * Z.of_nat i)) 255) (rev (seq 0 n)).

(** The message, a one bit, zero bits up to 56 modulo 64 bytes, and
    the length in bits on 64 bits. *)
Definition pad (msg : list Z) : list Z :=
  let len := Z.of_nat (length msg) in
  let zeros := Z.to_nat ((55 - len) mod 64) in
  msg ++ [128] ++ repeat 0 zeros ++ be_bytes 8 (8 * len).

Fixpoint blocks (n : nat) (ws : list Z) (h : regs) : regs :=
  match n with
  | O => h
  | S n' => blocks n' (drop 16 ws) (compress h (take 16 ws))
  end.

Definition digest (msg : list Z) : regs :=
  let ws := words (pad msg) in
  blocks (length ws / 16)%nat ws initial_hash.

(** [hashlib.sha256(data).hexdigest()] *)
Definition hexdigest (msg : list Z) : string :=
  let r := digest msg in
  String.concat ""
    (map (PyStr.hex 8) [ra r; rb r; rc r; rd r; re r; rf r; rg r; rh r]).

End Sha256.

Definition bytes_of (s : string) : list Z :=
  map PyStr.code (list_ascii_of_string s).

(** ** Python values *)

(** The values a query content holds and [json.dumps] serialises:
    [None], [bool], [int] and [str]. *)
Inductive scalar :=
| SNone
| SBool (b : bool)
| SInt (n : Z)
| SStr (s : string).

(** The values the cache stores: a scalar, the text
    [datetime.isoformat()] of an instant, or a flat [dict] of these. *)
Inductive pyatom :=
| AScalar (v : scalar)
| AIsoformat (t : Z).

Inductive pyobj :=
| PAtom (a : pyatom)
| PDictObj (items : list (string * pyatom)).

Definition py_None : pyobj := PAtom (AScalar SNone).

(** [bool(v)], the test of [if v:]. *)
Definition truthy (v : pyobj) : bool :=
  match v with
  | PAtom (AScalar SNone) => false
  | PAtom (AScalar (SBool b)) => b
  | PAtom (AScalar (SInt n)) => negb (n =? 0)
  | PAtom (AScalar (SStr s)) => negb (PyStr.is_empty s)
  | PAtom (AIsoformat _) => true
  | PDictObj items => match items with [] => false | _ :: _ => true end
  end.

(** [v is not None] *)
Definition is_not_None (v : pyobj) : bool :=
  match v with PAtom (AScalar SNone) => false | _ => true end.

(** [str(v)] *)
Definition py_str (v : scalar) : string :=
  match v with
  | SNone => "None"
  | SBool true => "True"
  | SBool false => "False"
  | SInt n => PyStr.of_int n
  | SStr s => s
  end.

(** ** [json.dumps(d, sort_keys=True)] on a flat [dict] *)

Module Json.

(** The escapes of [ensure_ascii=True]. *)
Definition escape_char (c : ascii) : string :=
  let n := PyStr.code c in
  if n =? 34 then String PyStr.backslash (String PyStr.dquote EmptyString)
  else if n =? 92 then String PyStr.backslash (String PyStr.backslash EmptyString)
  else if n =? 10 then String PyStr.backslash "n"
  else if n =? 13 then String PyStr.backslash "r"
  else if n =? 9 then String PyStr.backslash "t"
  else if n =? 8 then String PyStr.backslash "b"
  else if n =? 12 then String PyStr.backslash "f"
  else if (32 <=? n) && (n <=? 126) then String c EmptyString
  else String PyStr.backslash ("u" +:+ PyStr.hex 4 n).

Fixpoint escape (s : string) : string :=
  match s with
  | EmptyString => EmptyString
  | String c s' => escape_char c +:+ escape s'
  end.

Definition of_str (s : string) : string :=
  String PyStr.dquote (escape s +:+ String PyStr.dquote EmptyString).

Definition of_scalar (v : scalar) : string :=
  match v with
  | SNone => "null"
  | SBool true => "true"
  | SBool false => "false"
  | SInt n => PyStr.of_int n
  | SStr s => of_str s
  end.

(** [sorted(d.items())], by insertion. *)
Fixpoint insert_item (kv : string * scalar) (items : list (string * scalar))
  : list (string * scalar) :=
  match items with
  | [] => [kv]
  | kv' :: rest =>
      if String.leb (fst kv) (fst kv') then kv :: items
      else kv' :: insert_item kv rest
  end.

Definition sort_items (items : list (string * scalar)) : list (string * scalar) :=
  foldr insert_item [] items.

Definition of_item (kv : string * scalar) : string :=
  of_str (fst kv) +:+ ": " +:+ of_scalar (snd kv).

Definition dumps_sorted (items : list (string * scalar)) : string :=
  "{" +:+ String.concat ", " (map of_item (sort_items items)) +:+ "}".

End Json.

(** ** Insertion-ordered dictionaries *)

Module PyDict.
Section Dict.
Context {V : Type}.

(** [d.get(k)] *)
Fixpoint lookup (k : string) (d : list (string * V)) : option V :=
  match d with
  | [] => None
  | (k', v) :: d' => if decide (k = k') then Some v else lookup k d'
  end.

(** [k in d] *)
Definition mem (k : string) (d : list (string * V)) : bool :=
  match lookup k d with Some _ => true | None => false end.

(** [d[k] = v]: an existing key keeps its place, a new key goes last. *)
Fixpoint setitem (k : string) (v : V) (d : list (string * V))
  : list (string * V) :=
  match d with
  | [] => [(k, v)]
  | (k', v') :: d' =>
      if decide (k = k') then (k, v) :: d' else (k', v') :: setitem k v d'
  end.

(** [del d[k]], for a key that is present. *)
Fixpoint delitem (k : string) (d : list (string * V)) : list (string * V) :=
  match d with
  | [] => []
  | (k', v') :: d' =>
      if decide (k = k') then delitem k d' else (k', v') :: delitem k d'
  end.

(** [d.keys()] *)
Definition keys (d : list (string * V)) : list string := map fst d.

(** [len(d)] *)
Definition len (d : list (string * V)) : Z := Z.of_nat (length d).

(** What every Python [dict] satisfies: a key occurs once. *)
Definition wf (d : list (string * V)) : Prop := NoDup (keys d).
End Dict.
End PyDict.

(** [min(xs, key=f)]: the first element among those of least key;
    [None] stands for the [ValueError] on an empty sequence. *)
Fixpoint py_min_from {A} (f : A -> Z) (best : A) (xs : list A) : A :=
  match xs with
  | [] => best
  | x :: xs' => py_min_from f (if f x <? f best then x else best) xs'
  end.

Definition py_min {A} (f : A -> Z) (xs : list A) : option A :=
  match xs with
  | [] => None
  | x :: xs' => Some (py_min_from f x xs')
  end.

(** ** State-passing methods *)

Definition State (S A : Type) : Type := S -> A * S.

Global Instance state_ret {S} : MRet (State S) := fun _ a s => (a, s).
Global Instance state_bind {S} : MBind (State S) :=
  fun _ _ f m s => let '(a, s') := m s in f a s'.

Definition gets {S A} (f : S -> A) : State S A := fun s => (f s, s).
Definition modify {S} (f : S -> S) : State S unit := fun s => (tt, f s).

(** [timedelta(seconds=n)] in microseconds. *)
Definition timedelta_seconds (n : Z) : Z := 1000000 * n.

(** [datetime.min] and [datetime.max]: the first microsecond of the year
    1 and the last of the year 9999. *)
Definition datetime_min : Z := -62135596800000000.
Definition datetime_max : Z := 253402300799999999.

Definition is_datetime (t : Z) : bool :=
  (datetime_min <=? t) && (t <=? datetime_max).

(** The instants that the clock reads. *)
Definition clock_reading (now : Z) : bool :=
  (datetime_min <=? now) && (now <=? datetime_max - timedelta_seconds 86400).

(** [datetime.now() + timedelta(seconds=ttl)] raises [OverflowError]:
    the sum is not a [datetime].  A [ttl] that [timedelta] itself
    refuses (more than 999999999 days) is further from the clock than
    the whole range of [datetime], so the same test covers it. *)
Definition expiry_overflows (now ttl : Z) : bool :=
  clock_reading now && negb (is_datetime (now + timedelta_seconds ttl)).

(** ** [backend/services/cache_service.py] *)

(** The [dict] that [set] stores under a key. *)
Record entry := Entry {
  value : pyobj;
  created_at : Z;
  expires_at : Z;
  hits : Z
}.

Record CacheService := mkCacheService {
  cache : list (string * entry);
  ttl : Z;
  max_size : Z
}.

Definition with_cache (c : list (string * entry)) (self : CacheService)
  : CacheService :=
  {| cache := c; ttl := ttl self; max_size := max_size self |}.

(** The default values of [settings]. *)
Definition CACHE_TTL : Z := 3600.
Definition MAX_CACHE_SIZE : Z := 1000.

(** [x or y] on an optional [int]. *)
Definition int_or (x : option Z) (y : Z) : Z :=
  match x with
  | Some n => if n =? 0 then y else n
  | None => y
  end.

(** [CacheService(ttl, max_size)] *)
Definition new_CacheService (ttl max_size : option Z) : CacheService :=
  {| cache := []; ttl := int_or ttl CACHE_TTL;
     max_size := int_or max_size MAX_CACHE_SIZE |}.

(** [entry['hits'] += 1] *)
Definition hit (e : entry) : entry :=
  {| value := value e; created_at := created_at e;
     expires_at := expires_at e; hits := hits e + 1 |}.

(** [self.cache[k]['created_at']] for a key of the cache. *)
Definition created_of (c : list (string * entry)) (k : string) : Z :=
  from_option created_at 0 (PyDict.lookup k c).

(** The body of [_evict_oldest] on the [dict]. *)
Definition evict_oldest_dict (c : list (string * entry)) : list (string * entry) :=
  match py_min (created_of c) (PyDict.keys c) with
  | None => c
  | Some oldest_key => PyDict.delitem oldest_key c
  end.

Module CacheService.

Definition _evict_oldest : State CacheService unit :=
  modify (fun self => with_cache (evict_oldest_dict (cache self)) self).

(** [set(key, value, ttl)] at the instant [now].  The eviction comes
    before the expiry is computed: when the expiry overflows, the
    [except] branch returns [False] with the oldest entry already evicted
    and nothing stored. *)
Definition set (now : Z) (key : string) (v : pyobj) (ttl_arg : option Z)
  : State CacheService bool :=
  full ← gets (fun self => max_size self <=? PyDict.len (cache self));
  _ ← (if full : bool then _evict_oldest else mret tt);
  ttl ← gets (fun self => int_or ttl_arg (ttl self));
  if expiry_overflows now ttl then mret false
  else
    let expires_at := now + timedelta_seconds ttl in
    _ ← modify (fun self =>
           with_cache
             (PyDict.setitem key
                {| value := v; created_at := now;
                   expires_at := expires_at; hits := 0 |}
                (cache self)) self);
    mret true.

(** [get(key)] at the instant [now]; the result [py_None] is Python's
    [None]. *)
Definition get (now : Z) (key : string) : State CacheService pyobj :=
  found ← gets (fun self => PyDict.lookup key (cache self));
  match found with
  | None => mret py_None
  | Some e =>
      if expires_at e <? now then
        _ ← modify (fun self => with_cache (PyDict.delitem key (cache self)) self);
        mret py_None
      else
        _ ← modify (fun self =>
               with_cache (PyDict.setitem key (hit e) (cache self)) self);
        mret (value e)
  end.

(** [exists(key)] *)
Definition exists_ (now : Z) (key : string) : State CacheService bool :=
  v ← get now key;
  mret (is_not_None v).

(** [delete(key)] *)
Definition delete (key : string) : State CacheService bool :=
  present ← gets (fun self => PyDict.mem key (cache self));
  if present : bool then
    _ ← modify (fun self => with_cache (PyDict.delitem key (cache self)) self);
    mret true
  else mret false.

(** [clear()] *)
Definition clear : State CacheService unit :=
  modify (with_cache []).

(** The durable storage under [data/cache]: a file holds the pickled
    [dict], and [pickle.load] gives back what [pickle.dump] wrote. *)
Abbreviation Disk := (gmap string (list (string * entry))) (only parsing).

(** [save_to_disk(filename)].  [writable name] says whether
    [open(self.cache_dir / name, 'wb')] succeeds; for the empty name the
    path is the directory [data/cache] itself and [open] raises.  When
    [open] raises, the [except] branch returns [False] and no file is
    written. *)
Definition save_to_disk (writable : string -> bool) (filename : string)
    (disk : Disk) : State CacheService (bool * Disk) :=
  if negb (PyStr.is_empty filename) && writable filename then
    c ← gets cache;
    mret (true, <[filename := c]> disk)
  else mret (false, disk).

(** The keys of [expired_keys] in [load_from_disk]. *)
Definition expired_keys (now : Z) (c : list (string * entry)) : list string :=
  map fst (List.filter (fun kv => expires_at (snd kv) <? now) c).

(** [load_from_disk(filename)] at the instant [now]. *)
Definition load_from_disk (now : Z) (filename : string) (disk : Disk)
  : State CacheService bool :=
  match disk !! filename with
  | None => mret false
  | Some loaded =>
      _ ← modify (with_cache loaded);
      _ ← modify (fun self =>
             with_cache
               (foldl (fun c k => PyDict.delitem k c) (cache self)
                      (expired_keys now (cache self))) self);
      mret true
  end.

End CacheService.

(** ** [backend/services/deduplication_service.py] *)

Record DeduplicationService := mkDeduplicationService {
  seen_hashes : list (string * Z);
  similarity_threshold : Q
}.

(** The two module-level instances. *)
Record World := mkWorld {
  cache_service : CacheService;
  deduplication_service : DeduplicationService
}.

(** A method of the global [cache_service], called from the other
    service. *)
Definition on_cache {A} (m : State CacheService A) : State World A :=
  fun w =>
    let '(a, c) := m (cache_service w) in
    (a, {| cache_service := c;
           deduplication_service := deduplication_service w |}).

Definition with_seen (seen : list (string * Z)) (w : World) : World :=
  {| cache_service := cache_service w;
     deduplication_service :=
       {| seen_hashes := seen;
          similarity_threshold :=
            similarity_threshold (deduplication_service w) |} |}.

(** [DeduplicationService()] *)
Definition new_DeduplicationService : DeduplicationService :=
  {| seen_hashes := []; similarity_threshold := 9 # 10 |}.

(** The state once both modules are imported. *)
Definition initial_world : World :=
  {| cache_service := new_CacheService None None;
     deduplication_service := new_DeduplicationService |}.

(** [content.get(k, d)] *)
Definition content_get (content : gmap string scalar) (k : string) (d : scalar)
  : scalar :=
  default d (content !! k).

(** The [dict] called [normalized] in [generate_query_id]. *)
Definition normalized (content : gmap string scalar) : list (string * scalar) :=
  [ ("symptoms",
      SStr (PyStr.strip (PyStr.lower (py_str (content_get content "symptoms" (SStr ""))))));
    ("age", content_get content "age" SNone);
    ("gender", content_get content "gender" SNone);
    ("language", content_get content "language" (SStr "english")) ].

Definition generate_query_id (content : gmap string scalar) : string :=
  let content_string := Json.dumps_sorted (normalized content) in
  Sha256.hexdigest (bytes_of content_string).

Definition cache_key (query_id : string) : string := "query_seen_" +:+ query_id.

Definition is_duplicate (now : Z) (query_id : string) : State World bool :=
  cached ← on_cache (CacheService.get now (cache_key query_id));
  if truthy cached then mret true
  else
    in_memory ← gets (fun w =>
      PyDict.mem query_id (seen_hashes (deduplication_service w)));
    if in_memory : bool then mret true else mret false.

(** The [dict] that [mark_as_seen] caches. *)
Definition seen_record (now : Z) (query_id : string) : pyobj :=
  PDictObj [ ("seen_at", AIsoformat now);
             ("query_id", AScalar (SStr query_id)) ].

Definition mark_as_seen (now : Z) (query_id : string) (ttl : Z)
  : State World unit :=
  _ ← on_cache (CacheService.set now (cache_key query_id)
                  (seen_record now query_id) (Some ttl));
  modify (fun w =>
    with_seen (PyDict.setitem query_id now
                 (seen_hashes (deduplication_service w))) w).

(** The default [ttl] of [mark_as_seen]: 24 hours. *)
Definition DEDUP_TTL : Z := 86400.

Definition get_or_create_query_id (now : Z) (content : gmap string scalar)
  : State World (string * bool) :=
  let query_id := generate_query_id content in
  dup ← is_duplicate now query_id;
  _ ← (if negb dup then mark_as_seen now query_id DEDUP_TTL else mret tt);
  mret (query_id, negb dup).

(** [len(a) / len(b)]: the exact quotient of the two counts. *)
Definition ratio (a b : nat) : Q := Z.of_nat a # Pos.of_nat b.

Definition calculate_text_similarity (text1 text2 : string) : Q :=
  let text1_set : gset string := list_to_set (PyStr.split (PyStr.lower text1)) in
  let text2_set : gset string := list_to_set (PyStr.split (PyStr.lower text2)) in
  if bool_decide (text1_set = ∅) || bool_decide (text2_set = ∅) then 0%Q
  else
    let intersection := text1_set ∩ text2_set in
    let union := text1_set ∪ text2_set in
    ratio (size intersection) (size union).

(** The loop of [find_similar_queries] over the keys of [seen_hashes]. *)
Fixpoint scan_seen (now : Z) (threshold : Q) (query_ids : list string)
    (similar_queries : list string) : State World (list string) :=
  match query_ids with
  | [] => mret similar_queries
  | query_id :: rest =>
      cached ← on_cache (CacheService.get now (cache_key query_id));
      if truthy cached then
        let similarity := 0%Q in
        if Qle_bool threshold similarity
        then scan_seen now threshold rest (similar_queries ++ [query_id])
        else scan_seen now threshold rest similar_queries
      else scan_seen now threshold rest similar_queries
  end.

Definition find_similar_queries (now : Z) (symptoms : string) (threshold : Q)
  : State World (list string) :=
  query_ids ← gets (fun w => PyDict.keys (seen_hashes (deduplication_service w)));
  scan_seen now threshold query_ids [].

(** ** Observations and example states *)

(** The two dictionaries of a world. *)
Definition seen_of (w : World) : list (string * Z) :=
  seen_hashes (deduplication_service w).

Definition cache_of (w : World) : list (string * entry) :=
  cache (cache_service w).

(** The record of a hash is in the cache, has not expired at [now] and
    is true as a condition. *)
Definition live_record (now : Z) (c : list (string * entry)) (query_id : string)
  : bool :=
  match PyDict.lookup (cache_key query_id) c with
  | Some e => negb (expires_at e <? now) && truthy (value e)
  | None => false
  end.

(** An integer value and a small cache used in the examples. *)
Definition int_value (n : Z) : pyobj := PAtom (AScalar (SInt n)).

(** [CacheService()] after [set("k", 7, ttl=1)] at the instant 0. *)
Definition one_second_cache : CacheService :=
  (CacheService.set 0 "k" (int_value 7) (Some 1) (new_CacheService None None)).2.

(** A cache with one entry that expires after one second and one that
    expires after a hundred, written at the instants 0 and 1. *)
Definition two_entry_cache : CacheService :=
  (CacheService.set 1 "long" (int_value 2) (Some 100)
     (CacheService.set 0 "short" (int_value 1) (Some 1)
        (new_CacheService None None)).2).2.

(** A cache of capacity two holding ["k1"] and ["k2"], both written with
    a time to live of one second, at the instants 0 and 1. *)
Definition full_cache : CacheService :=
  (CacheService.set 1 "k2" (int_value 2) (Some 1)
     (CacheService.set 0 "k1" (int_value 1) (Some 1)
        (new_CacheService None (Some 2))).2).2.

(** The world after the content [{"symptoms": "fever"}] has been seen at
    the instant 0. *)
Definition fever_content : gmap string scalar := {[ "symptoms" := SStr "fever" ]}.
Definition fever_world : World :=
  (get_or_create_query_id 0 fever_content initial_world).2.

(** The two contents of the case-insensitivity example. *)
Definition content_upper : gmap string scalar :=
  {[ "symptoms" := SStr "Fever, Headache"; "age" := SInt 30;
     "language" := SStr "English" ]}.
Definition content_lower : gmap string scalar :=
  {[ "symptoms" := SStr "fever, headache"; "age" := SInt 30;
     "language" := SStr "english" ]}.

(** ** The other methods of the cache and the data of its callers *)

(** What [generate_unique_id] is given: a scalar, a [list] of scalars
    or a flat [dict] with its items in insertion order. *)
Inductive pydata :=
| DScalar (v : scalar)
| DList (xs : list scalar)
| DDict (items : list (string * scalar)).

(** [s.encode()]: UTF-8 of the code points below 256. *)
Definition utf8_char (c : ascii) : list Z :=
  let n := PyStr.code c in
  if n <? 128 then [n] else [192 + Z.shiftr n 6; 128 + Z.land n 63].

Definition utf8_encode (s : string) : list Z :=
  flat_map utf8_char (list_ascii_of_string s).

(** [json.dumps(xs)] of a [list]. *)
Definition json_dumps_list (xs : list scalar) : string :=
  "[" +:+ String.concat ", " (map Json.of_scalar xs) +:+ "]".

(** The text [data_str] that [generate_unique_id] hashes. *)
Definition data_str (data : pydata) : string :=
  match data with
  | DDict items => Json.dumps_sorted items
  | DList xs => json_dumps_list xs
  | DScalar v => py_str v
  end.

Definition generate_unique_id (data : pydata) : string :=
  Sha256.hexdigest (utf8_encode (data_str data)).

(** The [dict] that [get_stats] returns. *)
Record Stats := mkStats {
  stats_size : Z;
  stats_max_size : Z;
  stats_total_hits : Z;
  stats_keys : list string
}.

(** [sum(entry['hits'] for entry in self.cache.values())] *)
Definition total_hits (c : list (string * entry)) : Z :=
  foldr Z.add 0 (map (fun kv => hits (snd kv)) c).

Definition get_stats : State CacheService Stats :=
  gets (fun self =>
    {| stats_size := PyDict.len (cache self);
       stats_max_size := max_size self;
       stats_total_hits := total_hits (cache self);
       stats_keys := PyDict.keys (cache self) |}).

(** The content that [save_chat_message] gives to
    [get_or_create_query_id]. *)
Definition chat_content (user_id message : string) : gmap string scalar :=
  {[ "user_id" := SStr user_id; "message" := SStr message ]}.

(** The key under which the triage route caches its result. *)
Definition triage_result_key (query_id : string) : string :=
  "triage_result_" +:+ query_id.

(** ** [backend/services/translation_service.py] *)

(** [LANGUAGE_CODES.get(lang, default)] *)
Definition language_code (lang default : string) : string :=
  if decide (lang = "english") then "eng_Latn"
  else if decide (lang = "hausa") then "hau_Latn"
  else if decide (lang = "yoruba") then "yor_Latn"
  else if decide (lang = "igbo") then "ibo_Latn"
  else if decide (lang = "pidgin") then "eng_Latn"
  else default.

(** The cache key of [translate]: the first 50 characters of the text
    and the two languages. *)
Definition translate_cache_key (text source_lang target_lang : string) : string :=
  "translate_" +:+ String.substring 0 50 text +:+ "_" +:+ source_lang
  +:+ "_" +:+ target_lang.

Definition str_value (s : string) : pyobj := PAtom (AScalar (SStr s)).

(** [translate(text, source_lang, target_lang)] at the instant [now].
    [model_loaded] says whether the model and the tokenizer were loaded;
    [run_model text src_code tgt_code] is the text that tokenizing,
    generating and decoding give, or [None] when one of them raises. *)
Definition translate (model_loaded : bool)
    (run_model : string -> string -> string -> option string)
    (now : Z) (text source_lang target_lang : string)
  : State CacheService pyobj :=
  let cache_key := translate_cache_key text source_lang target_lang in
  cached ← CacheService.get now cache_key;
  if truthy cached then mret cached
  else if negb model_loaded then mret (str_value text)
  else
    let src_code := language_code (PyStr.lower source_lang) "eng_Latn" in
    let tgt_code := language_code (PyStr.lower target_lang) "hau_Latn" in
    match run_model text src_code tgt_code with
    | None => mret (str_value text)
    | Some translated_text =>
        _ ← CacheService.set now cache_key (str_value translated_text) (Some 3600);
        mret (str_value translated_text)
    end.

(** The order in which [json.dumps] writes the items of a [dict]. *)
Definition by_key : relation (string * scalar) := fun a b => String.le a.1 b.1.

(** The set of tokens that [calculate_text_similarity] makes of a
    text: [set(text.lower().split())]. *)
Definition tokens (text : string) : gset string :=
  list_to_set (PyStr.split (PyStr.lower text)).

(** The characters of [hexdigest]. *)
Definition is_hex_digit (c : ascii) : bool :=
  let n := PyStr.code c in
  ((48 <=? n) && (n <=? 57)) || ((97 <=? n) && (n <=? 102)).

(** [get_or_create_query_id(content)] called at each instant of a list,
    one call after the other; the results in order and the last state. *)
Fixpoint calls_in_a_row (content : gmap string scalar) (instants : list Z)
  : State World (list (string * bool)) :=
  match instants with
  | [] => mret []
  | now :: rest =>
      r ← get_or_create_query_id now content;
      rs ← calls_in_a_row content rest;
      mret (r :: rs)
  end.

(** [get(key)] called at each instant of a list; the state after the
    last call. *)
Fixpoint gets_in_a_row (key : string) (instants : list Z) (self : CacheService)
  : CacheService :=
  match instants with
  | [] => self
  | now :: rest => gets_in_a_row key rest (CacheService.get now key self).2
  end.

(** ** Calls whose steps interleave

    [get_or_create_query_id] calls [is_duplicate] and then, for a hash
    that is not a duplicate, [mark_as_seen]; the service holds no lock.
    Between the two a call of another thread can run.  A call is
    therefore in one of three places: before the check, between the
    check and the mark with the answer of [is_duplicate] in hand, or
    returned with its result. *)
Inductive call : Type :=
  | Started
  | Checked (is_dup : bool)
  | Returned (result : string * bool).

(** The next step of a call, at the instant [now]. *)
Definition step_call (now : Z) (content : gmap string scalar) (c : call)
  : State World call :=
  let query_id := generate_query_id content in
  match c with
  | Started =>
      dup ← is_duplicate now query_id;
      mret (Checked dup)
  | Checked dup =>
      _ ← (if negb dup then mark_as_seen now query_id DEDUP_TTL else mret tt);
      mret (Returned (query_id, negb dup))
  | Returned r => mret (Returned r)
  end.

(** A schedule names, step by step, the call that runs and the instant
    of the step. *)
Fixpoint run_schedule (content : gmap string scalar) (schedule : list (nat * Z))
    (calls : list call) : State World (list call) :=
  match schedule with
  | [] => mret calls
  | (i, now) :: rest =>
      match calls !! i with
      | Some c =>
          c' ← step_call now content c;
          run_schedule content rest (<[i := c']> calls)
      | None => run_schedule content rest calls
      end
  end.

(** The schedule in which the calls [i], [i + 1], ... run one after the
    other, each doing both its steps before the next starts. *)
Fixpoint one_after_the_other (i : nat) (instants : list Z) : list (nat * Z) :=
  match instants with
  | [] => []
  | now :: rest => (i, now) :: (i, now) :: one_after_the_other (S i) rest
  end.

(** The schedule in which the calls [i], [i + 1], ... do one step
    each. *)
Fixpoint one_step_each (i : nat) (instants : list Z) : list (nat * Z) :=
  match instants with
  | [] => []
  | now :: rest => (i, now) :: one_step_each (S i) rest
  end.

(** * Properties *)

(** ** Insertion-ordered dictionaries *)

Section PyDictFacts.
Context {V : Type}.
Implicit Types (d : list (string * V)) (k : string) (v : V).

Lemma lookup_setitem_eq k v d :
  PyDict.lookup k (PyDict.setitem k v d) = Some v.
Proof.
  induction d as [|[k' v'] d IH]; simpl.
  - by rewrite decide_True.
  - destruct (decide (k = k')) as [->|Hne]; simpl.
    + by rewrite decide_True.
    + by rewrite decide_False.
Qed.

Lemma lookup_setitem_ne k k' v d :
  k ≠ k' → PyDict.lookup k' (PyDict.setitem k v d) = PyDict.lookup k' d.
Proof.
  intros Hne. induction d as [|[k0 v0] d IH]; simpl.
  - by rewrite decide_False.
  - destruct (decide (k = k0)) as [->|Hk]; simpl.
    + by rewrite !(decide_False (P := k' = k0)).
    + by rewrite IH.
Qed.

Lemma lookup_delitem_eq k d : PyDict.lookup k (PyDict.delitem k d) = None.
Proof.
  induction d as [|[k' v'] d IH]; simpl; [done|].
  destruct (decide (k = k')) as [->|Hne]; simpl; [done|].
  by rewrite decide_False.
Qed.

Lemma lookup_delitem_ne k k' d :
  k ≠ k' → PyDict.lookup k' (PyDict.delitem k d) = PyDict.lookup k' d.
Proof.
  intros Hne. induction d as [|[k0 v0] d IH]; simpl; [done|].
  destruct (decide (k = k0)) as [->|Hk]; simpl.
  - by rewrite decide_False.
  - by rewrite IH.
Qed.

Lemma lookup_None_keys k d : PyDict.lookup k d = None ↔ k ∉ PyDict.keys d.
Proof.
  induction d as [|[k' v'] d IH]; simpl.
  - split; [intros _; apply not_elem_of_nil | done].
  - rewrite not_elem_of_cons. destruct (decide (k = k')) as [->|Hne].
    + split; [done | by intros [? _]].
    + rewrite IH. tauto.
Qed.

Lemma lookup_Some_elem k v d : PyDict.lookup k d = Some v → (k, v) ∈ d.
Proof.
  induction d as [|[k' v'] d IH]; simpl; [done|].
  destruct (decide (k = k')) as [->|Hne].
  - intros [= ->]. apply list_elem_of_here.
  - intros H. apply list_elem_of_further. auto.
Qed.

Lemma elem_lookup_Some k v d :
  PyDict.wf d → (k, v) ∈ d → PyDict.lookup k d = Some v.
Proof.
  unfold PyDict.wf, PyDict.keys.
  induction d as [|[k' v'] d IH]; simpl; intros Hwf Hin.
  - by apply elem_of_nil in Hin.
  - apply NoDup_cons in Hwf as [Hk' Hwf].
    apply elem_of_cons in Hin as [[= -> ->]|Hin].
    + by rewrite decide_True.
    + rewrite decide_False; [by apply IH|].
      intros ->. apply Hk'. apply list_elem_of_fmap. by exists (k', v).
Qed.

Lemma setitem_absent k v d :
  PyDict.lookup k d = None → PyDict.setitem k v d = d ++ [(k, v)].
Proof.
  induction d as [|[k' v'] d IH]; simpl; [done|].
  destruct (decide (k = k')); [done|]. intros H. by rewrite IH.
Qed.

Lemma keys_setitem_present k v d :
  PyDict.lookup k d ≠ None → PyDict.keys (PyDict.setitem k v d) = PyDict.keys d.
Proof.
  induction d as [|[k' v'] d IH]; simpl; [done|].
  destruct (decide (k = k')) as [->|Hne]; simpl; [done|].
  intros H. by rewrite IH.
Qed.

Lemma delitem_absent k d : PyDict.lookup k d = None → PyDict.delitem k d = d.
Proof.
  induction d as [|[k' v'] d IH]; simpl; [done|].
  destruct (decide (k = k')); [done|]. intros H. by rewrite IH.
Qed.

(** In a well-formed dictionary [del d[k]] removes one item. *)
Lemma delitem_split k v d :
  PyDict.wf d → PyDict.lookup k d = Some v →
  ∃ before after,
    d = before ++ (k, v) :: after ∧ PyDict.delitem k d = before ++ after.
Proof.
  unfold PyDict.wf, PyDict.keys.
  induction d as [|[k' v'] d IH]; simpl; [done|].
  intros Hwf. apply NoDup_cons in Hwf as [Hk' Hwf].
  destruct (decide (k = k')) as [->|Hne].
  - intros [= ->]. exists [], d. split; [done|]. simpl.
    apply delitem_absent. by apply lookup_None_keys.
  - intros H. destruct (IH Hwf H) as (b & a & -> & Hdel).
    exists ((k', v') :: b), a. simpl. by rewrite Hdel.
Qed.

Lemma keys_delitem_subset k k' d :
  k' ∈ PyDict.keys (PyDict.delitem k d) → k' ∈ PyDict.keys d.
Proof.
  induction d as [|[k0 v0] d IH]; simpl; [done|].
  destruct (decide (k = k0)); simpl; rewrite ?elem_of_cons; intuition.
Qed.

Lemma wf_delitem k d : PyDict.wf d → PyDict.wf (PyDict.delitem k d).
Proof.
  unfold PyDict.wf.
  induction d as [|[k' v'] d IH]; simpl; [done|].
  intros Hwf. apply NoDup_cons in Hwf as [Hk' Hwf].
  destruct (decide (k = k')); simpl; [auto|].
  apply NoDup_cons. split; [|auto].
  intros Hin. apply Hk'. by eapply keys_delitem_subset.
Qed.

Lemma keys_setitem_elem k k' v d :
  k' ∈ PyDict.keys (PyDict.setitem k v d) → k' = k ∨ k' ∈ PyDict.keys d.
Proof.
  induction d as [|[k0 v0] d IH]; simpl.
  - rewrite elem_of_cons. intuition.
  - destruct (decide (k = k0)); simpl; rewrite !elem_of_cons; intuition.
Qed.

Lemma wf_setitem k v d : PyDict.wf d → PyDict.wf (PyDict.setitem k v d).
Proof.
  unfold PyDict.wf.
  induction d as [|[k' v'] d IH]; simpl.
  - intros _. apply NoDup_singleton.
  - intros Hwf. apply NoDup_cons in Hwf as [Hk' Hwf].
    destruct (decide (k = k')) as [->|Hne]; simpl.
    + by apply NoDup_cons.
    + apply NoDup_cons. split; [|auto].
      intros Hin. apply keys_setitem_elem in Hin as [->|Hin]; auto.
Qed.

(** Deleting a list of keys one after the other. *)
Lemma lookup_foldl_delitem k (ks : list string) d :
  PyDict.lookup k (foldl (fun c k' => PyDict.delitem k' c) d ks)
  = if decide (k ∈ ks) then None else PyDict.lookup k d.
Proof.
  revert d. induction ks as [|k0 ks IH]; intros d; simpl.
  - destruct (decide (k ∈ [])) as [Hin|_]; [by apply elem_of_nil in Hin | done].
  - rewrite IH. destruct (decide (k = k0)) as [->|Hne].
    + rewrite lookup_delitem_eq.
      destruct (decide (k0 ∈ k0 :: ks)) as [_|H2].
      * by destruct (decide (k0 ∈ ks)).
      * exfalso. apply H2, list_elem_of_here.
    + rewrite lookup_delitem_ne; [|done].
      destruct (decide (k ∈ ks)) as [H1|H1];
        destruct (decide (k ∈ k0 :: ks)) as [H2|H2]; try done.
      * exfalso. apply H2. by apply list_elem_of_further.
      * exfalso. by apply elem_of_cons in H2 as [?|?].
Qed.
End PyDictFacts.

(** Running a method: the binds and primitive actions are unfolded. *)
Ltac run_state :=
  unfold mbind, state_bind, mret, state_ret, gets, modify; simpl.

(** ** The cache *)

Section CacheFacts.
Implicit Types (self : CacheService) (c : list (string * entry))
  (key k : string) (e : entry) (now : Z).

(** The three outcomes of [get]. *)
Lemma get_missing now key self :
  PyDict.lookup key (cache self) = None →
  CacheService.get now key self = (py_None, self).
Proof. intros H. unfold CacheService.get. run_state. by rewrite H. Qed.

Lemma get_expired now key self e :
  PyDict.lookup key (cache self) = Some e → expires_at e < now →
  CacheService.get now key self
  = (py_None, with_cache (PyDict.delitem key (cache self)) self).
Proof.
  intros H Hexp. unfold CacheService.get. run_state. rewrite H.
  by rewrite (proj2 (Z.ltb_lt _ _) Hexp).
Qed.

Lemma get_live now key self e :
  PyDict.lookup key (cache self) = Some e → now ≤ expires_at e →
  CacheService.get now key self
  = (value e, with_cache (PyDict.setitem key (hit e) (cache self)) self).
Proof.
  intros H Hexp. unfold CacheService.get. run_state. rewrite H.
  by rewrite (proj2 (Z.ltb_ge _ _) Hexp).
Qed.

(** [get] leaves the other keys alone. *)
Lemma get_frame now key k self :
  key ≠ k →
  PyDict.lookup k (cache (CacheService.get now key self).2)
  = PyDict.lookup k (cache self).
Proof.
  intros Hne. destruct (PyDict.lookup key (cache self)) as [e|] eqn:H.
  - destruct (Z.ltb_spec (expires_at e) now).
    + rewrite (get_expired _ _ _ e); [|done..]. simpl.
      by apply lookup_delitem_ne.
    + rewrite (get_live _ _ _ e); [|done..]. simpl.
      by apply lookup_setitem_ne.
  - by rewrite get_missing.
Qed.

(** The two ways out of [set]. *)
Lemma set_cases now key v ttl_arg self :
  CacheService.set now key v ttl_arg self
  = let room := if max_size self <=? PyDict.len (cache self)
                then evict_oldest_dict (cache self) else cache self in
    if expiry_overflows now (int_or ttl_arg (ttl self))
    then (false, with_cache room self)
    else (true,
          with_cache
            (PyDict.setitem key
               (Entry v now (now + timedelta_seconds (int_or ttl_arg (ttl self))) 0)
               room) self).
Proof.
  destruct self as [c t m].
  unfold CacheService.set, CacheService._evict_oldest. run_state.
  destruct (m <=? PyDict.len c); simpl;
    by destruct (expiry_overflows now (int_or ttl_arg t)).
Qed.

Lemma set_unfold now key v ttl_arg self :
  expiry_overflows now (int_or ttl_arg (ttl self)) = false →
  CacheService.set now key v ttl_arg self
  = (true,
     with_cache
       (PyDict.setitem key
          (Entry v now (now + timedelta_seconds (int_or ttl_arg (ttl self))) 0)
          (if max_size self <=? PyDict.len (cache self)
           then evict_oldest_dict (cache self) else cache self)) self).
Proof. intros H. rewrite set_cases. simpl. by rewrite H. Qed.

Lemma set_overflow now key v ttl_arg self :
  expiry_overflows now (int_or ttl_arg (ttl self)) = true →
  CacheService.set now key v ttl_arg self
  = (false,
     with_cache
       (if max_size self <=? PyDict.len (cache self)
        then evict_oldest_dict (cache self) else cache self) self).
Proof. intros H. rewrite set_cases. simpl. by rewrite H. Qed.

(** At a clock reading, an expiry outside the range of [datetime]
    overflows: [set] returns [False], and every entry of the cache
    after it was there before. *)
Lemma set_out_of_range now key v ttl_arg self :
  clock_reading now = true →
  ¬ (datetime_min ≤ now + timedelta_seconds (int_or ttl_arg (ttl self))
     ≤ datetime_max) →
  (CacheService.set now key v ttl_arg self).1 = false
  ∧ ∀ k e, PyDict.lookup k (cache (CacheService.set now key v ttl_arg self).2) = Some e →
           PyDict.lookup k (cache self) = Some e.
Proof.
  intros Hclock Hout.
  assert (Hover : expiry_overflows now (int_or ttl_arg (ttl self)) = true).
  { unfold expiry_overflows, is_datetime. rewrite Hclock. simpl.
    apply negb_true_iff, andb_false_iff.
    destruct (Z.leb_spec datetime_min
                (now + timedelta_seconds (int_or ttl_arg (ttl self)))); [|by left].
    destruct (Z.leb_spec (now + timedelta_seconds (int_or ttl_arg (ttl self)))
                datetime_max); [|by right].
    exfalso. apply Hout. lia. }
  rewrite set_overflow by done. simpl. split; [done|].
  intros k e. destruct (max_size self <=? PyDict.len (cache self)); [|done].
  unfold evict_oldest_dict.
  destruct (py_min (created_of (cache self)) (PyDict.keys (cache self)))
    as [oldest|]; [|done].
  destruct (decide (k = oldest)) as [->|Hk].
  - by rewrite lookup_delitem_eq.
  - by rewrite lookup_delitem_ne.
Qed.

(** A time to live of a million million seconds, or of as many before
    now: the full cache loses its oldest entry and gains none; the
    value that the key had stays readable. *)
Example set_out_of_range_examples :
  CacheService.set 2 "k3" (int_value 3) (Some 1000000000000) full_cache
  = (false, with_cache [("k2", Entry (int_value 2) 1 1000001 0)] full_cache)
  ∧ (CacheService.set 5 "k" (int_value 8) (Some (-1000000000000)) one_second_cache).1
    = false
  ∧ (CacheService.get 5 "k"
       (CacheService.set 5 "k" (int_value 8) (Some (-1000000000000))
          one_second_cache).2).1
    = int_value 7.
Proof. vm_compute. repeat split. Qed.

(** [set] returns [True] exactly when the expiry does not overflow. *)
Lemma set_returns now key v ttl_arg self :
  (CacheService.set now key v ttl_arg self).1
  = negb (expiry_overflows now (int_or ttl_arg (ttl self))).
Proof.
  rewrite set_cases. simpl.
  by destruct (expiry_overflows now (int_or ttl_arg (ttl self))).
Qed.

(** An expiry within the range of [datetime] does not overflow. *)
Lemma no_overflow_in_range now t :
  datetime_min ≤ now + timedelta_seconds t ≤ datetime_max →
  expiry_overflows now t = false.
Proof.
  intros [Hlo Hhi]. unfold expiry_overflows, is_datetime.
  rewrite (proj2 (Z.leb_le _ _) Hlo), (proj2 (Z.leb_le _ _) Hhi). simpl.
  apply andb_false_r.
Qed.

(** A time to live of at most a day never overflows: the fixed values
    that the services pass (3600, 86400) and the default of
    [settings]. *)
Lemma no_overflow_within_a_day now t :
  0 ≤ t ≤ 86400 → expiry_overflows now t = false.
Proof.
  intros Ht. unfold expiry_overflows, clock_reading, is_datetime.
  destruct (Z.leb_spec datetime_min now) as [Hlo|]; [|done].
  destruct (Z.leb_spec now (datetime_max - timedelta_seconds 86400)) as [Hhi|];
    [|done].
  simpl. unfold timedelta_seconds in *.
  rewrite (proj2 (Z.leb_le datetime_min (now + 1000000 * t))) by lia.
  rewrite (proj2 (Z.leb_le (now + 1000000 * t) datetime_max)) by lia.
  done.
Qed.

(** The fixed values that the callers pass as [ttl] never overflow. *)
Lemma no_overflow_fixed now t default :
  0 < t ≤ 86400 → expiry_overflows now (int_or (Some t) default) = false.
Proof.
  intros Ht. unfold int_or. rewrite (proj2 (Z.eqb_neq t 0)) by lia.
  apply no_overflow_within_a_day. lia.
Qed.
(** The methods keep the cache a well-formed [dict]. *)
Lemma wf_evict_oldest c : PyDict.wf c → PyDict.wf (evict_oldest_dict c).
Proof.
  intros Hwf. unfold evict_oldest_dict.
  destruct (py_min (created_of c) (PyDict.keys c)); [by apply wf_delitem | done].
Qed.

Lemma wf_methods now key v ttl_arg self :
  PyDict.wf (cache self) →
  PyDict.wf (cache (CacheService.set now key v ttl_arg self).2)
  ∧ PyDict.wf (cache (CacheService.get now key self).2)
  ∧ PyDict.wf (cache (CacheService.delete key self).2).
Proof.
  intros Hwf. split; [|split].
  - assert (Hroom : PyDict.wf (if max_size self <=? PyDict.len (cache self)
                               then evict_oldest_dict (cache self) else cache self)).
    { destruct (max_size self <=? PyDict.len (cache self)); [|done].
      by apply wf_evict_oldest. }
    rewrite set_cases. simpl.
    destruct (expiry_overflows now (int_or ttl_arg (ttl self))); simpl;
      [done | by apply wf_setitem].
  - destruct (PyDict.lookup key (cache self)) as [e|] eqn:H.
    + destruct (Z.ltb_spec (expires_at e) now).
      * rewrite (get_expired _ _ _ e) by done. by apply wf_delitem.
      * rewrite (get_live _ _ _ e) by done. by apply wf_setitem.
    + by rewrite get_missing.
  - unfold CacheService.delete. run_state.
    destruct (PyDict.mem key (cache self)); [by apply wf_delitem | done].
Qed.
End CacheFacts.

(** C5. A [get] of a stored key no later than its expiry returns the
    stored value, adds one to the hit count of the entry and keeps its
    expiry; a [get] after the expiry returns [None] and removes the
    entry; a [get] of a key that is not stored returns [None].  The last
    part states the first two for the entry written by a [set] that
    returned [True]. *)
Theorem get_hit_expired_missing (self : CacheService) (now : Z) (key : string) :
  (∀ e, PyDict.lookup key (cache self) = Some e → now ≤ expires_at e →
     (CacheService.get now key self).1 = value e
     ∧ PyDict.lookup key (cache (CacheService.get now key self).2)
       = Some (Entry (value e) (created_at e) (expires_at e) (hits e + 1)))
  ∧ (∀ e, PyDict.lookup key (cache self) = Some e → expires_at e < now →
     (CacheService.get now key self).1 = py_None
     ∧ PyDict.lookup key (cache (CacheService.get now key self).2) = None)
  ∧ (PyDict.lookup key (cache self) = None →
     CacheService.get now key self = (py_None, self))
  ∧ (∀ t0 v t, t ≠ 0 →
     (CacheService.set t0 key v (Some t) self).1 = true →
     let stored := (CacheService.set t0 key v (Some t) self).2 in
     (now ≤ t0 + timedelta_seconds t →
        (CacheService.get now key stored).1 = v
        ∧ PyDict.lookup key (cache (CacheService.get now key stored).2)
          = Some (Entry v t0 (t0 + timedelta_seconds t) 1))
     ∧ (t0 + timedelta_seconds t < now →
        (CacheService.get now key stored).1 = py_None
        ∧ PyDict.lookup key (cache (CacheService.get now key stored).2) = None)).
Proof.
  assert (Hlive : ∀ s e, PyDict.lookup key (cache s) = Some e → now ≤ expires_at e →
     (CacheService.get now key s).1 = value e
     ∧ PyDict.lookup key (cache (CacheService.get now key s).2)
       = Some (Entry (value e) (created_at e) (expires_at e) (hits e + 1))).
  { intros s e H Hle. rewrite (get_live _ _ _ e) by done. simpl.
    split; [done | apply lookup_setitem_eq]. }
  assert (Hdead : ∀ s e, PyDict.lookup key (cache s) = Some e → expires_at e < now →
     (CacheService.get now key s).1 = py_None
     ∧ PyDict.lookup key (cache (CacheService.get now key s).2) = None).
  { intros s e H Hlt. rewrite (get_expired _ _ _ e) by done. simpl.
    split; [done | apply lookup_delitem_eq]. }
  split; [apply Hlive|]. split; [apply Hdead|]. split; [apply get_missing|].
  intros t0 v t Ht Hok stored.
  assert (Hstored : PyDict.lookup key (cache stored)
                    = Some (Entry v t0 (t0 + timedelta_seconds t) 0)).
  { rewrite set_returns in Hok. apply negb_true_iff in Hok.
    unfold stored. rewrite set_unfold by done. simpl. rewrite lookup_setitem_eq.
    by rewrite (proj2 (Z.eqb_neq _ _) Ht). }
  split; intros Hnow.
  - apply (Hlive stored _ Hstored Hnow).
  - apply (Hdead stored _ Hstored Hnow).
Qed.

Lemma get_hit_expired_missing_witness :
  (CacheService.get 1000000 "k" one_second_cache).1 = int_value 7
  ∧ (CacheService.get 1000001 "k" one_second_cache).1 = py_None
  ∧ CacheService.get 5 "other" one_second_cache = (py_None, one_second_cache)
  ∧ (CacheService.get 2000000 "k"
       (CacheService.set 0 "k" (int_value 8) (Some 2) one_second_cache).2).1
    = int_value 8.
Proof.
  split; [|split; [|split]].
  - apply (proj1 (get_hit_expired_missing one_second_cache 1000000 "k")
             (Entry (int_value 7) 0 1000000 0)); [reflexivity | simpl; lia].
  - apply (proj1 (proj2 (get_hit_expired_missing one_second_cache 1000001 "k"))
             (Entry (int_value 7) 0 1000000 0)); [reflexivity | simpl; lia].
  - apply (proj1 (proj2 (proj2 (get_hit_expired_missing one_second_cache 5 "other")))).
    reflexivity.
  - refine (proj1 (proj1 (proj2 (proj2 (proj2
             (get_hit_expired_missing one_second_cache 2000000 "k")))
             0 (int_value 8) 2 _ _) _)); [lia | reflexivity | vm_compute; discriminate].
Defined.

(** C10. For a key whose entry is still stored but has expired,
    [delete] returns [True] and removes the entry, while [get] and
    [exists] on the same state report the key as absent. *)
Theorem delete_ignores_expiry (self : CacheService) (now : Z) (key : string)
    (e : entry) :
  PyDict.lookup key (cache self) = Some e →
  expires_at e < now →
  (CacheService.delete key self).1 = true
  ∧ PyDict.lookup key (cache (CacheService.delete key self).2) = None
  ∧ (CacheService.get now key self).1 = py_None
  ∧ (CacheService.exists_ now key self).1 = false.
Proof.
  intros H Hlt.
  assert (Hget : CacheService.get now key self
                 = (py_None, with_cache (PyDict.delitem key (cache self)) self))
    by by apply (get_expired _ _ _ e).
  unfold CacheService.delete, CacheService.exists_. run_state.
  rewrite Hget. unfold PyDict.mem. rewrite H. simpl.
  repeat split. apply lookup_delitem_eq.
Qed.

Lemma delete_ignores_expiry_witness :
  (CacheService.delete "k" one_second_cache).1 = true
  ∧ PyDict.lookup "k" (cache (CacheService.delete "k" one_second_cache).2) = None
  ∧ (CacheService.get 1000001 "k" one_second_cache).1 = py_None
  ∧ (CacheService.exists_ 1000001 "k" one_second_cache).1 = false.
Proof.
  apply (delete_ignores_expiry one_second_cache 1000001 "k"
           (Entry (int_value 7) 0 1000000 0)); [reflexivity | simpl; lia].
Defined.

(** ** Persistence *)

Lemma elem_of_expired_keys (now : Z) (k : string) (c : list (string * entry)) :
  k ∈ CacheService.expired_keys now c
  ↔ ∃ e, (k, e) ∈ c ∧ expires_at e < now.
Proof.
  unfold CacheService.expired_keys. rewrite list_elem_of_fmap. split.
  - intros ([k' e] & -> & Hin). apply list_elem_of_In, filter_In in Hin as [Hin Hexp].
    exists e. split; [by apply list_elem_of_In | by apply Z.ltb_lt].
  - intros (e & Hin & Hexp). exists (k, e). split; [done|].
    apply list_elem_of_In, filter_In. split; [by apply list_elem_of_In|].
    by apply Z.ltb_lt.
Qed.

(** What [load_from_disk] leaves of the pickled [dict]. *)
Lemma lookup_after_load (now : Z) (k : string) (c : list (string * entry)) (e : entry) :
  PyDict.wf c → PyDict.lookup k c = Some e →
  PyDict.lookup k (foldl (fun c' k' => PyDict.delitem k' c') c
                         (CacheService.expired_keys now c))
  = if expires_at e <? now then None else Some e.
Proof.
  intros Hwf Hk. rewrite lookup_foldl_delitem.
  destruct (Z.ltb_spec (expires_at e) now) as [Hlt|Hge].
  - rewrite decide_True; [done|]. apply elem_of_expired_keys.
    exists e. split; [by apply lookup_Some_elem | done].
  - rewrite decide_False; [done|]. intros Hin.
    apply elem_of_expired_keys in Hin as (e' & Hin & Hlt).
    apply (elem_lookup_Some _ _ _ Hwf) in Hin. rewrite Hk in Hin.
    injection Hin as ->. lia.
Qed.

(** [save_to_disk] leaves the instance as it is; it returns [True] and
    writes the file when [open] accepts the name, and returns [False]
    and writes nothing otherwise, as for the empty name. *)
Lemma save_to_disk_cases (writable : string → bool) (name : string)
    (disk : CacheService.Disk) (self : CacheService) :
  CacheService.save_to_disk writable name disk self
  = if negb (PyStr.is_empty name) && writable name
    then ((true, <[name := cache self]> disk), self)
    else ((false, disk), self).
Proof.
  unfold CacheService.save_to_disk.
  by destruct (negb (PyStr.is_empty name) && writable name).
Qed.

Lemma save_to_disk_empty_name (writable : string → bool)
    (disk : CacheService.Disk) (self : CacheService) :
  CacheService.save_to_disk writable "" disk self = ((false, disk), self).
Proof. reflexivity. Qed.



(** ** Eviction *)

(** [min] returns the first element of least key: the elements before
    it have a greater key, those after it a key at least as great. *)
Lemma py_min_from_spec {A} (f : A → Z) (xs : list A) (best : A) :
  ∃ before after,
    best :: xs = before ++ py_min_from f best xs :: after
    ∧ (∀ x, x ∈ before → f (py_min_from f best xs) < f x)
    ∧ (∀ x, x ∈ after → f (py_min_from f best xs) ≤ f x).
Proof.
  revert best. induction xs as [|x xs IH]; intros best; simpl.
  - exists [], []. split; [done|]. split; intros ? Hin; by apply elem_of_nil in Hin.
  - destruct (IH (if f x <? f best then x else best))
      as (before & after & Heq & Hbefore & Hafter).
    set (m := py_min_from f (if f x <? f best then x else best) xs) in *.
    destruct (Z.ltb_spec (f x) (f best)) as [Hlt|Hge].
    + exists (best :: before), after. rewrite Heq. split; [done|].
      split; [|done]. intros y [Hy|Hy]%elem_of_cons; [rewrite Hy|auto].
      assert (Hx : x ∈ before ++ m :: after) by (rewrite <- Heq; apply list_elem_of_here).
      apply elem_of_app in Hx as [Hx|[Hx|Hx]%elem_of_cons].
      * specialize (Hbefore _ Hx). lia.
      * rewrite <- Hx. lia.
      * specialize (Hafter _ Hx). lia.
    + destruct before as [|b before]; simpl in Heq; injection Heq as Hb Hxs.
      * exists [], (x :: after). rewrite <- Hb in Hafter |- *. rewrite Hxs.
        split; [done|].
        split; [intros ? Hin; by apply elem_of_nil in Hin|].
        intros y [Hy|Hy]%elem_of_cons; [rewrite Hy; lia | auto].
      * subst b. exists (best :: x :: before), after. rewrite Hxs.
        split; [done|]. split; [|done].
        assert (Hm : f m < f best) by (apply Hbefore, list_elem_of_here).
        intros y [Hy|[Hy|Hy]%elem_of_cons]%elem_of_cons;
          [by rewrite Hy | rewrite Hy; lia |].
        apply Hbefore. by apply list_elem_of_further.
Qed.

Lemma delitem_middle {V} (k : string) (v : V) (before after : list (string * V)) :
  PyDict.wf (before ++ (k, v) :: after) →
  PyDict.delitem k (before ++ (k, v) :: after) = before ++ after.
Proof.
  intros Hwf.
  destruct (delitem_split k v _ Hwf) as (b & a & Heq & ->).
  { apply elem_lookup_Some; [done|]. apply elem_of_app. right. apply list_elem_of_here. }
  unfold PyDict.wf, PyDict.keys in Hwf. rewrite Heq in Hwf.
  revert before Heq Hwf. induction b as [|[k' v'] b IH]; intros before Heq Hwf.
  - destruct before as [|[k0 v0] before]; simpl in *.
    + by injection Heq as ->.
    + injection Heq as -> -> Heq. apply NoDup_cons in Hwf as [Hk _].
      exfalso. apply Hk. rewrite <- Heq, fmap_app. apply elem_of_app. right.
      apply list_elem_of_here.
  - destruct before as [|[k0 v0] before]; simpl in *.
    + injection Heq as -> -> Heq. apply NoDup_cons in Hwf as [Hk _].
      exfalso. apply Hk. rewrite fmap_app. apply elem_of_app. right.
      apply list_elem_of_here.
    + injection Heq as -> -> Heq. apply NoDup_cons in Hwf as [_ Hwf].
      f_equal. by apply IH.
Qed.

(** What [_evict_oldest] removes from a [dict] that is not empty. *)
Lemma evict_oldest_spec (c : list (string * entry)) :
  PyDict.wf c → c ≠ [] →
  ∃ before oldest e_old after,
    c = before ++ (oldest, e_old) :: after
    ∧ evict_oldest_dict c = before ++ after
    ∧ (∀ k e, (k, e) ∈ before → created_at e_old < created_at e)
    ∧ (∀ k e, (k, e) ∈ after → created_at e_old ≤ created_at e).
Proof.
  intros Hwf Hne. unfold evict_oldest_dict.
  destruct c as [|[k0 e0] c0]; [done|]. simpl PyDict.keys. unfold py_min.
  set (whole := (k0, e0) :: c0) in *.
  destruct (py_min_from_spec (created_of whole) (PyDict.keys c0) k0)
    as (kb & ka & Heq & Hbefore & Hafter).
  set (m := py_min_from (created_of whole) k0 (PyDict.keys c0)) in *.
  change (k0 :: PyDict.keys c0) with (fst <$> whole) in Heq.
  apply fmap_app_inv in Heq as (before & rest & -> & Hrest & Hwhole).
  symmetry in Hrest.
  apply fmap_cons_inv in Hrest as ([k e_old] & after & Hm & -> & ->).
  simpl in Hm. subst k.
  assert (Hcreated : ∀ k e, (k, e) ∈ whole → created_of whole k = created_at e).
  { intros k e Hin. unfold created_of. by rewrite (elem_lookup_Some k e whole). }
  assert (Hold : created_of whole m = created_at e_old).
  { apply Hcreated. rewrite Hwhole. apply elem_of_app. right. apply list_elem_of_here. }
  exists before, m, e_old, after. split; [done|]. split.
  { rewrite Hwhole. apply delitem_middle. by rewrite <- Hwhole. }
  split; intros k e Hin.
  - rewrite <- Hold, <- (Hcreated k e).
    + apply Hbefore. apply list_elem_of_fmap. by exists (k, e).
    + rewrite Hwhole. apply elem_of_app. by left.
  - rewrite <- Hold, <- (Hcreated k e).
    + apply Hafter. apply list_elem_of_fmap. by exists (k, e).
    + rewrite Hwhole. apply elem_of_app. right. by apply list_elem_of_further.
Qed.

(** C4, as stated, fails on the code.  Overwriting ["k2"] in the full
    cache evicts ["k1"]; and when both entries have expired, so that no
    live entry is left, writing a third key still evicts ["k1"]. *)
Lemma set_evicts_on_overwrite_and_counts_expired :
  PyDict.keys (cache full_cache) = ["k1"; "k2"]
  ∧ PyDict.keys (cache (CacheService.set 2 "k2" (int_value 3) (Some 1) full_cache).2)
    = ["k2"]
  ∧ (CacheService.get 5000000 "k1" full_cache).1 = py_None
  ∧ (CacheService.get 5000000 "k2" full_cache).1 = py_None
  ∧ PyDict.keys (cache (CacheService.set 5000000 "k3" (int_value 3) (Some 1) full_cache).2)
    = ["k2"; "k3"].
Proof. vm_compute. repeat split. Qed.

(** Three writes of distinct keys, in order of time, into a cache of
    capacity two. *)
Lemma three_sets_capacity_two (k1 k2 k3 : string) (v1 v2 v3 : pyobj)
    (t1 t2 t3 : Z) :
  k1 ≠ k2 → k1 ≠ k3 → k2 ≠ k3 → t1 ≤ t2 →
  PyDict.keys
    (cache (CacheService.set t3 k3 v3 None
              (CacheService.set t2 k2 v2 None
                 (CacheService.set t1 k1 v1 None
                    (new_CacheService None (Some 2))).2).2).2)
  = [k2; k3].
Proof.
  intros H12 H13 H23 Ht.
  assert (Hday : ∀ now, expiry_overflows now CACHE_TTL = false).
  { intros now. apply no_overflow_within_a_day. unfold CACHE_TTL. lia. }
  rewrite (set_unfold t1) by apply Hday. simpl.
  rewrite (set_unfold t2) by apply Hday. simpl.
  rewrite (set_unfold t3) by apply Hday. simpl.
  rewrite (decide_False (P := k2 = k1)) by done. simpl.
  unfold evict_oldest_dict, py_min, created_of. simpl.
  rewrite (decide_True (P := k1 = k1)) by done.
  rewrite (decide_False (P := k2 = k1)) by done.
  rewrite (decide_True (P := k2 = k2)) by done. simpl.
  rewrite (proj2 (Z.ltb_ge _ _) Ht). simpl.
  rewrite (decide_True (P := k1 = k1)) by done.
  rewrite (decide_False (P := k1 = k2)) by done. simpl.
  by rewrite (decide_False (P := k3 = k2)) by done.
Qed.

(** C4, amended. A [set] with a time to live other than zero for which
    [now + ttl] is a [datetime] returns [True] and stores the value
    under the key, over any entry the key had, created at [now],
    expiring at [now + ttl] and not yet hit.  Capacity counts every
    stored entry, expired or not.  While fewer than [max_size] entries
    are stored no other key is touched.  When the key is new, the new
    entry goes last: after all the entries while fewer than [max_size]
    are stored or the cache is empty, and otherwise after exactly one
    entry has been evicted; the evicted entry has the least
    [created_at], and is the first inserted among those.  When
    [now + ttl] is not a [datetime], the [set] returns [False] and
    writes no entry.  With [max_size = 2], three distinct keys written
    in order of time with the default time to live leave the second and
    the third. *)
Theorem set_stores_and_evicts_oldest (self : CacheService) (now : Z)
    (key : string) (v : pyobj) (t : Z) :
  PyDict.wf (cache self) → t ≠ 0 →
  let new := Entry v now (now + timedelta_seconds t) 0 in
  let after_set := (CacheService.set now key v (Some t) self).2 in
  (datetime_min ≤ now + timedelta_seconds t ≤ datetime_max →
     (CacheService.set now key v (Some t) self).1 = true
     ∧ PyDict.lookup key (cache after_set) = Some new
     ∧ (PyDict.len (cache self) < max_size self →
          ∀ k, k ≠ key →
            PyDict.lookup k (cache after_set) = PyDict.lookup k (cache self))
     ∧ (PyDict.lookup key (cache self) = None →
          (PyDict.len (cache self) < max_size self ∨ cache self = [] →
             cache after_set = cache self ++ [(key, new)])
          ∧ (max_size self ≤ PyDict.len (cache self) → cache self ≠ [] →
             ∃ before oldest e_old after,
               cache self = before ++ (oldest, e_old) :: after
               ∧ cache after_set = before ++ after ++ [(key, new)]
               ∧ (∀ k e, (k, e) ∈ before → created_at e_old < created_at e)
               ∧ (∀ k e, (k, e) ∈ after → created_at e_old ≤ created_at e))))
  ∧ (clock_reading now = true →
     ¬ (datetime_min ≤ now + timedelta_seconds t ≤ datetime_max) →
     (CacheService.set now key v (Some t) self).1 = false
     ∧ ∀ k e, PyDict.lookup k (cache after_set) = Some e →
              PyDict.lookup k (cache self) = Some e)
  ∧ (∀ k1 k2 k3 v1 v2 v3 t1 t2 t3,
       k1 ≠ k2 → k1 ≠ k3 → k2 ≠ k3 → t1 ≤ t2 →
       PyDict.keys
         (cache (CacheService.set t3 k3 v3 None
                   (CacheService.set t2 k2 v2 None
                      (CacheService.set t1 k1 v1 None
                         (new_CacheService None (Some 2))).2).2).2)
       = [k2; k3]).
Proof.
  intros Hwf Ht new after_set.
  assert (Httl : int_or (Some t) (ttl self) = t).
  { simpl. by rewrite (proj2 (Z.eqb_neq _ _) Ht). }
  split; [|split; [|intros; by apply three_sets_capacity_two]].
  2:{ intros Hclock Hout. apply set_out_of_range; [done|]. by rewrite Httl. }
  intros Hrange.
  assert (Hok : expiry_overflows now (int_or (Some t) (ttl self)) = false).
  { rewrite Httl. by apply no_overflow_in_range. }
  assert (Hafter : cache after_set
    = PyDict.setitem key new
        (if max_size self <=? PyDict.len (cache self)
         then evict_oldest_dict (cache self) else cache self)).
  { unfold after_set. rewrite set_unfold by done. simpl.
    by rewrite (proj2 (Z.eqb_neq _ _) Ht). }
  split; [by rewrite set_unfold|].
  split; [rewrite Hafter; apply lookup_setitem_eq|].
  split.
  { intros Hroom k Hk. rewrite Hafter.
    rewrite (proj2 (Z.leb_gt _ _) Hroom). by apply lookup_setitem_ne. }
  intros Hnew. split.
  - intros [Hroom|Hempty].
    + rewrite Hafter, (proj2 (Z.leb_gt _ _) Hroom). by apply setitem_absent.
    + rewrite Hafter, Hempty. simpl.
      by destruct (max_size self <=? PyDict.len []).
  - intros Hfull Hne. rewrite Hafter, (proj2 (Z.leb_le _ _) Hfull).
    destruct (evict_oldest_spec (cache self) Hwf Hne)
      as (before & oldest & e_old & after & Hc & Hev & Hb & Ha).
    exists before, oldest, e_old, after. split; [done|]. split; [|done].
    rewrite Hev, setitem_absent; [by rewrite <- app_assoc|].
    apply lookup_None_keys. intros Hin.
    apply (proj1 (lookup_None_keys key (cache self)) Hnew).
    rewrite Hc. unfold PyDict.keys in *. rewrite fmap_app in Hin.
    rewrite fmap_app, fmap_cons. apply elem_of_app.
    apply elem_of_app in Hin as [Hin|Hin]; [by left | right].
    by apply list_elem_of_further.
Qed.

Lemma set_stores_and_evicts_oldest_witness :
  ∃ before oldest e_old after,
    cache full_cache = before ++ (oldest, e_old) :: after
    ∧ cache (CacheService.set 2 "k3" (int_value 3) (Some 1) full_cache).2
      = before ++ after ++ [("k3", Entry (int_value 3) 2 1000002 0)]
    ∧ (∀ k e, (k, e) ∈ before → created_at e_old < created_at e)
    ∧ (∀ k e, (k, e) ∈ after → created_at e_old ≤ created_at e).
Proof.
  refine (proj2 (proj2 (proj2 (proj2 (proj1
    (set_stores_and_evicts_oldest full_cache 2 "k3" (int_value 3) 1 _ _) _)))
    _) _ _).
  - apply (bool_decide_unpack _). vm_compute. exact I.
  - lia.
  - vm_compute. split; discriminate.
  - reflexivity.
  - vm_compute. discriminate.
  - discriminate.
Defined.

(** ** The deduplication service *)

Section DedupFacts.
Implicit Types (w : World) (now : Z) (query_id : string).

Lemma is_duplicate_unfold now query_id w :
  is_duplicate now query_id w
  = let looked := CacheService.get now (cache_key query_id) (cache_service w) in
    (truthy looked.1 || PyDict.mem query_id (seen_of w),
     mkWorld looked.2 (deduplication_service w)).
Proof.
  unfold is_duplicate, on_cache. run_state.
  destruct (CacheService.get now (cache_key query_id) (cache_service w))
    as [cached c']. simpl.
  destruct (truthy cached); [done|]. simpl. unfold seen_of.
  by destruct (PyDict.mem query_id (seen_hashes (deduplication_service w))).
Qed.

Lemma mark_as_seen_unfold now query_id t w :
  mark_as_seen now query_id t w
  = (tt,
     with_seen (PyDict.setitem query_id now (seen_of w))
       (mkWorld
          (CacheService.set now (cache_key query_id)
             (seen_record now query_id) (Some t) (cache_service w)).2
          (deduplication_service w))).
Proof.
  unfold mark_as_seen, on_cache. run_state.
  by destruct (CacheService.set now (cache_key query_id)
                 (seen_record now query_id) (Some t) (cache_service w)).
Qed.

Lemma get_or_create_unfold now content w :
  get_or_create_query_id now content w
  = let query_id := generate_query_id content in
    let checked := is_duplicate now query_id w in
    if checked.1 then ((query_id, false), checked.2)
    else ((query_id, true), (mark_as_seen now query_id DEDUP_TTL checked.2).2).
Proof.
  unfold get_or_create_query_id. run_state.
  destruct (is_duplicate now (generate_query_id content) w) as [[|] w1]; simpl.
  - done.
  - by destruct (mark_as_seen now (generate_query_id content) DEDUP_TTL w1) as [[] w2].
Qed.

(** Once marked, a hash is in the in-memory store, and its record is in
    the cache until twenty-four hours later. *)
Lemma mark_as_seen_state now query_id w :
  let marked := (mark_as_seen now query_id DEDUP_TTL w).2 in
  PyDict.mem query_id (seen_of marked) = true
  ∧ PyDict.lookup (cache_key query_id) (cache_of marked)
    = Some (Entry (seen_record now query_id) now
              (now + timedelta_seconds DEDUP_TTL) 0).
Proof.
  rewrite mark_as_seen_unfold. simpl. split.
  - unfold PyDict.mem, seen_of. simpl. by rewrite lookup_setitem_eq.
  - unfold cache_of. simpl.
    rewrite set_unfold by (apply no_overflow_fixed; unfold DEDUP_TTL; lia).
    simpl. by rewrite lookup_setitem_eq.
Qed.

(** A hash of the in-memory store is a duplicate at every instant, and
    the check leaves the store as it is. *)
Lemma is_duplicate_in_memory now query_id w :
  PyDict.mem query_id (seen_of w) = true →
  (is_duplicate now query_id w).1 = true
  ∧ seen_of (is_duplicate now query_id w).2 = seen_of w.
Proof.
  intros Hmem. rewrite is_duplicate_unfold. simpl. rewrite Hmem.
  split; [apply orb_true_r | done].
Qed.
End DedupFacts.

(** C3. When the hash of a content is not marked seen, two calls of
    [get_or_create_query_id] one after the other return the hash with
    [True] and then the same hash with [False]. *)
Theorem get_or_create_twice (w : World) (content : gmap string scalar)
    (t1 t2 : Z) :
  (is_duplicate t1 (generate_query_id content) w).1 = false →
  let first := get_or_create_query_id t1 content w in
  let second := get_or_create_query_id t2 content first.2 in
  first.1 = (generate_query_id content, true)
  ∧ second.1 = (generate_query_id content, false).
Proof.
  intros Hnew first second.
  assert (Hfirst : first
    = ((generate_query_id content, true),
       (mark_as_seen t1 (generate_query_id content) DEDUP_TTL
          (is_duplicate t1 (generate_query_id content) w).2).2)).
  { unfold first. rewrite get_or_create_unfold. simpl. by rewrite Hnew. }
  split; [by rewrite Hfirst|].
  unfold second. rewrite get_or_create_unfold. simpl.
  rewrite Hfirst. simpl.
  destruct (mark_as_seen_state t1 (generate_query_id content)
              (is_duplicate t1 (generate_query_id content) w).2) as [Hmem _].
  by rewrite (proj1 (is_duplicate_in_memory t2 _ _ Hmem)).
Qed.

Lemma get_or_create_twice_witness :
  let first := get_or_create_query_id 0 content_lower initial_world in
  let second := get_or_create_query_id 1 content_lower first.2 in
  first.1 = (generate_query_id content_lower, true)
  ∧ second.1 = (generate_query_id content_lower, false).
Proof.
  apply (get_or_create_twice initial_world content_lower 0 1).
  vm_compute. reflexivity.
Defined.

(** C1, as stated, fails on the code: a content is marked seen at the
    instant 0, its cached record expires twenty-four hours later, and
    the call made one second after that returns [False], not [True]. *)
Lemma expired_record_is_still_duplicate :
  let key := cache_key (generate_query_id content_lower) in
  let first := get_or_create_query_id 0 content_lower initial_world in
  let later := get_or_create_query_id 86401000000 content_lower first.2 in
  first.1.2 = true
  ∧ expires_at <$> PyDict.lookup key (cache_of first.2) = Some 86400000000
  ∧ later.1.2 = false
  ∧ PyDict.mem (generate_query_id content_lower) (seen_of later.2) = true.
Proof. vm_compute. repeat split. Qed.

(** C1, amended. Once a call has marked a hash as seen, a call made
    after the twenty-four hours of the cached record observes the
    expiry, in that the check drops the expired record from the cache,
    and still returns [False]: the hash is in [seen_hashes], which has
    no expiry.  From then on every call returns [False] and changes
    nothing, so the status does not go back from seen to unseen. *)
Theorem seen_hash_outlives_ttl (w : World) (content : gmap string scalar)
    (t0 t1 : Z) :
  (get_or_create_query_id t0 content w).1.2 = true →
  t0 + timedelta_seconds DEDUP_TTL < t1 →
  let marked := (get_or_create_query_id t0 content w).2 in
  let later := get_or_create_query_id t1 content marked in
  later.1 = (generate_query_id content, false)
  ∧ PyDict.lookup (cache_key (generate_query_id content)) (cache_of later.2) = None
  ∧ ∀ t2, get_or_create_query_id t2 content later.2
          = ((generate_query_id content, false), later.2).
Proof.
  intros Hnew Hlate marked later.
  set (query_id := generate_query_id content) in *.
  rewrite get_or_create_unfold in Hnew. fold query_id in Hnew. simpl in Hnew.
  destruct (is_duplicate t0 query_id w) as [dup w0] eqn:Hcheck.
  simpl in Hnew. destruct dup; [done|]. clear Hnew.
  assert (Hmarked : marked = (mark_as_seen t0 query_id DEDUP_TTL w0).2).
  { unfold marked. rewrite get_or_create_unfold. fold query_id. simpl.
    by rewrite Hcheck. }
  destruct (mark_as_seen_state t0 query_id w0) as [Hmem Hrecord].
  rewrite <- Hmarked in Hmem, Hrecord. unfold cache_of in Hrecord.
  assert (Hlater : later
    = ((query_id, false),
       mkWorld
         (with_cache (PyDict.delitem (cache_key query_id) (cache_of marked))
            (cache_service marked))
         (deduplication_service marked))).
  { unfold later. rewrite get_or_create_unfold. fold query_id. simpl.
    rewrite is_duplicate_unfold. simpl.
    rewrite (get_expired t1 _ _ _ Hrecord) by done. simpl.
    by rewrite Hmem. }
  rewrite Hlater. simpl. split; [done|].
  assert (Hgone : PyDict.lookup (cache_key query_id)
                    (PyDict.delitem (cache_key query_id) (cache_of marked)) = None)
    by apply lookup_delitem_eq.
  split; [done|].
  intros t2. rewrite get_or_create_unfold. fold query_id. simpl.
  rewrite is_duplicate_unfold. simpl.
  rewrite get_missing by done. simpl.
  unfold seen_of in *. simpl. by rewrite Hmem.
Qed.

(** One second after the twenty-four hours. *)
Lemma seen_hash_outlives_ttl_witness :
  let marked := (get_or_create_query_id 0 content_lower initial_world).2 in
  let later := get_or_create_query_id 86401000000 content_lower marked in
  later.1 = (generate_query_id content_lower, false)
  ∧ PyDict.lookup (cache_key (generate_query_id content_lower)) (cache_of later.2)
    = None
  ∧ ∀ t2, get_or_create_query_id t2 content_lower later.2
          = ((generate_query_id content_lower, false), later.2).
Proof.
  apply (seen_hash_outlives_ttl initial_world content_lower 0 86401000000).
  - vm_compute. reflexivity.
  - vm_compute. reflexivity.
Defined.

(** C7, as stated, fails on the code: the second call of a content
    returns [False] and moves the hit counter of the cached record from
    0 to 1. *)
Lemma duplicate_call_counts_a_hit :
  let key := cache_key (generate_query_id content_lower) in
  let seen := (get_or_create_query_id 0 content_lower initial_world).2 in
  let again := get_or_create_query_id 1 content_lower seen in
  again.1.2 = false
  ∧ hits <$> PyDict.lookup key (cache_of seen) = Some 0
  ∧ hits <$> PyDict.lookup key (cache_of again.2) = Some 1
  ∧ again.2 ≠ seen.
Proof. vm_compute. repeat split. discriminate. Qed.

(** C7, amended. When the record of the hash of a content is in the
    cache and has not expired, [get_or_create_query_id] returns the hash
    with [False]; it adds one to the hit counter of that record and
    changes nothing else: the keys of the cache and their order, every
    other entry, the in-memory store and the settings stay as they
    were. *)
Theorem duplicate_call_only_counts_a_hit (w : World)
    (content : gmap string scalar) (now : Z) (e : entry) :
  let key := cache_key (generate_query_id content) in
  PyDict.lookup key (cache_of w) = Some e →
  now ≤ expires_at e →
  truthy (value e) = true →
  let after_call := (get_or_create_query_id now content w).2 in
  (get_or_create_query_id now content w).1 = (generate_query_id content, false)
  ∧ after_call
    = mkWorld
        (with_cache (PyDict.setitem key (hit e) (cache_of w)) (cache_service w))
        (deduplication_service w)
  ∧ PyDict.keys (cache_of after_call) = PyDict.keys (cache_of w)
  ∧ PyDict.lookup key (cache_of after_call)
    = Some (Entry (value e) (created_at e) (expires_at e) (hits e + 1))
  ∧ ∀ k, k ≠ key → PyDict.lookup k (cache_of after_call) = PyDict.lookup k (cache_of w).
Proof.
  intros key Hrecord Hlive Htruthy after_call. unfold cache_of in *.
  assert (Hcall : get_or_create_query_id now content w
    = ((generate_query_id content, false),
       mkWorld
         (with_cache (PyDict.setitem key (hit e) (cache_of w)) (cache_service w))
         (deduplication_service w))).
  { rewrite get_or_create_unfold. simpl. rewrite is_duplicate_unfold. simpl.
    fold key. rewrite (get_live now key _ e) by done. simpl. by rewrite Htruthy. }
  unfold after_call. rewrite Hcall. simpl. split; [done|]. split; [done|].
  split; [|split].
  - apply keys_setitem_present. by rewrite Hrecord.
  - apply lookup_setitem_eq.
  - intros k Hk. by apply lookup_setitem_ne.
Qed.

Lemma duplicate_call_only_counts_a_hit_witness :
  let seen := (get_or_create_query_id 0 content_lower initial_world).2 in
  (get_or_create_query_id 1 content_lower seen).1
  = (generate_query_id content_lower, false)
  ∧ PyDict.keys (cache_of (get_or_create_query_id 1 content_lower seen).2)
    = PyDict.keys (cache_of seen).
Proof.
  intros seen.
  pose proof (duplicate_call_only_counts_a_hit seen content_lower 1
    (Entry (seen_record 0 (generate_query_id content_lower)) 0 86400000000 0)) as H.
  destruct H as (Hres & _ & Hkeys & _).
  - vm_compute. reflexivity.
  - simpl. lia.
  - reflexivity.
  - split; [exact Hres | exact Hkeys].
Defined.

(** ** The similarity scan *)

Lemma truthy_get_live (now : Z) (query_id : string) (self : CacheService) :
  truthy (CacheService.get now (cache_key query_id) self).1
  = live_record now (cache self) query_id.
Proof.
  unfold live_record.
  destruct (PyDict.lookup (cache_key query_id) (cache self)) as [e|] eqn:H.
  - destruct (Z.ltb_spec (expires_at e) now).
    + by rewrite (get_expired _ _ _ e).
    + by rewrite (get_live _ _ _ e).
  - by rewrite get_missing.
Qed.

(** A [get] at [now] does not change which records are live at [now]. *)
Lemma live_record_get (now : Z) (key query_id : string) (self : CacheService) :
  live_record now (cache (CacheService.get now key self).2) query_id
  = live_record now (cache self) query_id.
Proof.
  unfold live_record.
  destruct (decide (key = cache_key query_id)) as [->|Hne];
    [|by rewrite get_frame].
  destruct (PyDict.lookup (cache_key query_id) (cache self)) as [e|] eqn:H.
  - destruct (Z.ltb_spec (expires_at e) now) as [Hlt|Hge].
    + rewrite (get_expired _ _ _ e) by done. simpl.
      by rewrite lookup_delitem_eq.
    + rewrite (get_live _ _ _ e) by done. simpl.
      rewrite lookup_setitem_eq. simpl.
      by rewrite (proj2 (Z.ltb_ge _ _) Hge).
  - rewrite get_missing by done. cbn [snd]. by rewrite H.
Qed.

Lemma scan_seen_result (now : Z) (threshold : Q) (query_ids similar : list string)
    (w : World) :
  (scan_seen now threshold query_ids similar w).1
  = similar ++ (if Qle_bool threshold 0
                then List.filter (live_record now (cache_of w)) query_ids
                else []).
Proof.
  unfold cache_of.
  revert similar w. induction query_ids as [|query_id rest IH]; intros similar w.
  - simpl. unfold mret, state_ret. simpl.
    destruct (Qle_bool threshold 0); by rewrite app_nil_r.
  - simpl. unfold on_cache. run_state.
    pose proof (truthy_get_live now query_id (cache_service w)) as Htruthy.
    pose proof (fun q => live_record_get now (cache_key query_id) q (cache_service w))
      as Hframe.
    destruct (CacheService.get now (cache_key query_id) (cache_service w))
      as [cached c']. simpl in *.
    assert (Hfilter : List.filter (live_record now (cache c')) rest
                      = List.filter (live_record now (cache (cache_service w))) rest).
    { apply List.filter_ext. intros q. apply Hframe. }
    rewrite <- Htruthy.
    destruct (truthy cached); destruct (Qle_bool threshold 0) eqn:Hth;
      rewrite IH; simpl; rewrite ?Hth, ?Hfilter; by rewrite <- ?app_assoc.
Qed.

(** The body of the loop is the placeholder [similarity = 0.0]:
    [find_similar_queries] does not read the reference text.  For a
    threshold above 0 it returns the empty list; for a threshold of 0
    or less it returns, in the order of [seen_hashes], the hashes whose
    record is in the cache and has not expired. *)
Lemma find_similar_queries_constant_similarity (w : World) (now : Z)
    (symptoms : string) (threshold : Q) :
  (find_similar_queries now symptoms threshold w).1
  = if Qle_bool threshold 0
    then List.filter (live_record now (cache_of w)) (PyDict.keys (seen_of w))
    else [].
Proof.
  unfold find_similar_queries. run_state.
  by rewrite scan_seen_result.
Qed.

(** C9. The code does not find the similar queries that its docstring
    and the claim promise.  After the content [{"symptoms": "fever"}]
    has been seen, its record being in the cache and not expired, the
    reference text ["fever"] has the similarity 1 with the text of that
    query, which is at least the threshold 0.9, and
    [find_similar_queries("fever", 0.9)] returns the empty list. *)
Theorem find_similar_queries_misses_equal_text :
  PyDict.keys (seen_of fever_world) = [generate_query_id fever_content]
  ∧ live_record 1 (cache_of fever_world) (generate_query_id fever_content) = true
  ∧ calculate_text_similarity "fever" "fever" = 1%Q
  ∧ Qle_bool (9 # 10) (calculate_text_similarity "fever" "fever") = true
  ∧ (find_similar_queries 1 "fever" (9 # 10) fever_world).1 = [].
Proof. vm_compute. repeat split. Qed.

(** ** The fingerprint *)

(** The standard test vectors of the hash function. *)
Example sha256_abc :
  Sha256.hexdigest (bytes_of "abc")
  = "ba7816bf8f01cfea414140de5dae2223b00361a396177a9cb410ff61f20015ad".
Proof. vm_compute. reflexivity. Qed.

Example sha256_empty :
  Sha256.hexdigest (bytes_of "")
  = "e3b0c44298fc1c149afbf4c8996fb92427ae41e4649b934ca495991b7852b855".
Proof. vm_compute. reflexivity. Qed.

Example sha256_two_blocks :
  Sha256.hexdigest (repeat 97 56)
  = "b35439a4ac6f0948b6d6f9e3c6af0f5f590ce20f1bde7090ef7970686ec6738a".
Proof. vm_compute. reflexivity. Qed.

(** Escapes, a negative number and [str] of a [bool], as [json.dumps]
    and [hashlib] give them. *)
Example generate_query_id_escapes :
  generate_query_id
    {[ "symptoms" := SBool true; "age" := SInt (-5); "language" := SNone;
       "gender" :=
         SStr (String "M" (String (PyStr.chr 10) (String PyStr.dquote
                (String PyStr.backslash (String (PyStr.chr 127)
                   (String (PyStr.chr 233) (String (PyStr.chr 1) EmptyString))))))) ]}
  = "0bfe38cd7cb616af4309019cfa099555e4c5353cc917cba0f3b2090c63302131".
Proof. vm_compute. reflexivity. Qed.

Example calculate_text_similarity_example :
  calculate_text_similarity "Fever and Chills" "fever  chills" = (2 # 3)%Q.
Proof. vm_compute. reflexivity. Qed.

(** The hashes of the three example contents, as [hashlib] gives them. *)
Example generate_query_id_upper :
  generate_query_id content_upper
  = "5ffeb5f8f7ec9eb4961269246d401067c1b9354c977a04b0509231d8049f2f8a".
Proof. vm_compute. reflexivity. Qed.

Example generate_query_id_lower :
  generate_query_id content_lower
  = "b507de313d48e4f5b2e08cef2dc7a1cc2abc074d97fb4c89b6a583d836f9842f".
Proof. vm_compute. reflexivity. Qed.

Example generate_query_id_empty :
  generate_query_id ∅
  = "1d65425d08f378f1c113d3aecb21e3b5aebad9f79d2030f63cde6db601e34065".
Proof. vm_compute. reflexivity. Qed.

(** C2, as stated, fails on the code: the two contents of the example
    agree once every string field is lower-cased, and their hashes
    differ, because [generate_query_id] lower-cases [symptoms] only. *)
Lemma language_case_changes_query_id :
  PyStr.lower "Fever, Headache" = "fever, headache"
  ∧ PyStr.lower "English" = "english"
  ∧ generate_query_id content_upper ≠ generate_query_id content_lower.
Proof. vm_compute. repeat split. discriminate. Qed.

(** *** Lower-casing and trimming *)

Section Normalization.
Implicit Types (c : ascii) (s : string).

Lemma isspace_lower_char c : PyStr.isspace (PyStr.lower_char c) = PyStr.isspace c.
Proof. by destruct c as [[] [] [] [] [] [] [] []]. Qed.

Lemma lower_char_idem c :
  PyStr.lower_char (PyStr.lower_char c) = PyStr.lower_char c.
Proof. by destruct c as [[] [] [] [] [] [] [] []]. Qed.

Lemma lower_idem s : PyStr.lower (PyStr.lower s) = PyStr.lower s.
Proof. induction s as [|c s IH]; simpl; [done|]. by rewrite lower_char_idem, IH. Qed.

Lemma is_empty_lower s : PyStr.is_empty (PyStr.lower s) = PyStr.is_empty s.
Proof. by destruct s. Qed.

Lemma lower_lstrip s : PyStr.lower (PyStr.lstrip s) = PyStr.lstrip (PyStr.lower s).
Proof.
  induction s as [|c s IH]; simpl; [done|].
  rewrite isspace_lower_char. by destruct (PyStr.isspace c).
Qed.

Lemma lower_rstrip s : PyStr.lower (PyStr.rstrip s) = PyStr.rstrip (PyStr.lower s).
Proof.
  induction s as [|c s IH]; simpl; [done|].
  rewrite isspace_lower_char, <- IH, is_empty_lower.
  by destruct (PyStr.isspace c && PyStr.is_empty (PyStr.rstrip s)).
Qed.

Lemma lower_strip s : PyStr.lower (PyStr.strip s) = PyStr.strip (PyStr.lower s).
Proof. unfold PyStr.strip. by rewrite lower_rstrip, lower_lstrip. Qed.

Lemma lstrip_head s :
  PyStr.lstrip s = EmptyString
  ∨ ∃ c s', PyStr.lstrip s = String c s' ∧ PyStr.isspace c = false.
Proof.
  induction s as [|c s IH]; simpl; [by left|].
  destruct (PyStr.isspace c) eqn:Hc; [done|]. right. by exists c, s.
Qed.

Lemma rstrip_idem s : PyStr.rstrip (PyStr.rstrip s) = PyStr.rstrip s.
Proof.
  induction s as [|c s IH]; simpl; [done|].
  destruct (PyStr.isspace c && PyStr.is_empty (PyStr.rstrip s)) eqn:Hc; [done|].
  simpl. by rewrite IH, Hc.
Qed.

Lemma strip_idem s : PyStr.strip (PyStr.strip s) = PyStr.strip s.
Proof.
  unfold PyStr.strip.
  destruct (lstrip_head s) as [->|(c & s' & -> & Hc)]; [done|].
  simpl. rewrite Hc. simpl. rewrite Hc. simpl. rewrite Hc. simpl.
  by rewrite rstrip_idem.
Qed.
End Normalization.

(** The fingerprint is a function of the four normalized fields. *)
Lemma generate_query_id_ext (c1 c2 : gmap string scalar) :
  PyStr.strip (PyStr.lower (py_str (content_get c1 "symptoms" (SStr ""))))
  = PyStr.strip (PyStr.lower (py_str (content_get c2 "symptoms" (SStr "")))) →
  content_get c1 "age" SNone = content_get c2 "age" SNone →
  content_get c1 "gender" SNone = content_get c2 "gender" SNone →
  content_get c1 "language" (SStr "english")
  = content_get c2 "language" (SStr "english") →
  generate_query_id c1 = generate_query_id c2.
Proof.
  intros Hsymptoms Hage Hgender Hlanguage.
  unfold generate_query_id, normalized.
  by rewrite Hsymptoms, Hage, Hgender, Hlanguage.
Qed.

(** Writing a field changes what [get] reads for that field only. *)
Lemma content_get_insert (c : gmap string scalar) (k k' : string) (v d : scalar) :
  content_get (<[k := v]> c) k' d
  = if decide (k = k') then v else content_get c k' d.
Proof.
  unfold content_get. rewrite lookup_insert. by destruct (decide (k = k')).
Qed.

Lemma content_get_missing (c : gmap string scalar) (k : string) (d : scalar) :
  c !! k = None → content_get c k d = d.
Proof. unfold content_get. by intros ->. Qed.

(** C2, amended. Two contents get the same hash whenever they agree on
    the four normalized fields: [symptoms] rendered by [str],
    lower-cased and trimmed, with the empty text when missing; [age]
    and [gender] as given, [None] when missing; [language] as given,
    in its own case and untrimmed, ["english"] when missing.  The order
    of the keys and any other key play no part.  So the hash does not
    depend on the case of [symptoms] nor on the white space around it,
    and a missing field hashes like the field holding its default. *)
Theorem generate_query_id_normalized :
  (∀ c1 c2 : gmap string scalar,
     PyStr.strip (PyStr.lower (py_str (content_get c1 "symptoms" (SStr ""))))
     = PyStr.strip (PyStr.lower (py_str (content_get c2 "symptoms" (SStr "")))) →
     content_get c1 "age" SNone = content_get c2 "age" SNone →
     content_get c1 "gender" SNone = content_get c2 "gender" SNone →
     content_get c1 "language" (SStr "english")
     = content_get c2 "language" (SStr "english") →
     generate_query_id c1 = generate_query_id c2)
  ∧ (∀ (c : gmap string scalar) s,
       generate_query_id (<["symptoms" := SStr (PyStr.lower s)]> c)
       = generate_query_id (<["symptoms" := SStr s]> c))
  ∧ (∀ (c : gmap string scalar) s,
       generate_query_id (<["symptoms" := SStr (PyStr.strip s)]> c)
       = generate_query_id (<["symptoms" := SStr s]> c))
  ∧ (∀ c : gmap string scalar, c !! "symptoms" = None →
       generate_query_id (<["symptoms" := SStr ""]> c) = generate_query_id c)
  ∧ (∀ c : gmap string scalar, c !! "age" = None →
       generate_query_id (<["age" := SNone]> c) = generate_query_id c)
  ∧ (∀ c : gmap string scalar, c !! "gender" = None →
       generate_query_id (<["gender" := SNone]> c) = generate_query_id c)
  ∧ (∀ c : gmap string scalar, c !! "language" = None →
       generate_query_id (<["language" := SStr "english"]> c) = generate_query_id c).
Proof.
  split; [exact generate_query_id_ext|].
  repeat split; intros c; intros;
    apply generate_query_id_ext; rewrite !content_get_insert; simpl;
    rewrite ?content_get_missing by done; try done.
  - by rewrite lower_idem.
  - by rewrite lower_strip, strip_idem.
Qed.

(** The example with the language in the same case on both sides, the
    second content naming a missing field and listing its keys in
    another order. *)
Lemma generate_query_id_normalized_witness :
  generate_query_id
    {[ "symptoms" := SStr "  Fever, Headache "; "age" := SInt 30;
       "language" := SStr "english" ]}
  = generate_query_id
      {[ "gender" := SNone; "age" := SInt 30;
         "symptoms" := SStr "fever, headache" ]}.
Proof.
  apply (proj1 generate_query_id_normalized); reflexivity.
Defined.

(** * Further properties of the two services *)

(** ** More on insertion-ordered dictionaries *)

Section PyDictMore.
Context {V : Type}.
Implicit Types (d : list (string * V)) (k : string) (v : V).

Lemma keys_delitem k d :
  PyDict.keys (PyDict.delitem k d)
  = List.filter (fun k' => negb (bool_decide (k = k'))) (PyDict.keys d).
Proof.
  induction d as [|[k' v'] d IH]; simpl; [done|].
  destruct (decide (k = k')) as [->|Hne]; case_bool_decide; try done.
  simpl. by rewrite IH.
Qed.

Lemma length_keys d : length (PyDict.keys d) = length d.
Proof. apply length_map. Qed.

Lemma length_setitem_present k v d :
  PyDict.lookup k d ≠ None → length (PyDict.setitem k v d) = length d.
Proof.
  intros H. rewrite <- !length_keys. by rewrite keys_setitem_present.
Qed.

Lemma length_setitem_absent k v d :
  PyDict.lookup k d = None → length (PyDict.setitem k v d) = S (length d).
Proof.
  intros H. rewrite setitem_absent by done. rewrite length_app. simpl. lia.
Qed.

Lemma length_setitem_le k v d : (length (PyDict.setitem k v d) ≤ S (length d))%nat.
Proof.
  destruct (PyDict.lookup k d) eqn:H.
  - rewrite length_setitem_present; [lia | by rewrite H].
  - rewrite length_setitem_absent by done. lia.
Qed.

Lemma length_delitem_le k d : (length (PyDict.delitem k d) ≤ length d)%nat.
Proof.
  induction d as [|[k' v'] d IH]; simpl; [done|].
  destruct (decide (k = k')); simpl; lia.
Qed.

(** Writing a key that is present replaces its item where it stands. *)
Lemma setitem_present_split k v d :
  PyDict.lookup k d = Some v →
  ∃ before after,
    d = before ++ (k, v) :: after
    ∧ ∀ v', PyDict.setitem k v' d = before ++ (k, v') :: after.
Proof.
  induction d as [|[k' v0] d IH]; simpl; [done|].
  destruct (decide (k = k')) as [->|Hne].
  - intros [= ->]. exists [], d. split; [done|]. intros v'. simpl. done.
  - intros H. destruct (IH H) as (b & a & -> & Hset).
    exists ((k', v0) :: b), a. split; [done|]. intros v'. simpl. by rewrite Hset.
Qed.

Lemma foldl_delitem_filter (ks : list string) d :
  foldl (fun c k => PyDict.delitem k c) d ks
  = List.filter (fun kv => negb (bool_decide (kv.1 ∈ ks))) d.
Proof.
  revert d. induction ks as [|k ks IH]; intros d; simpl.
  - induction d as [|kv d IHd]; simpl; [done|].
    by rewrite <- IHd.
  - rewrite IH. clear IH. induction d as [|[k' v'] d IHd]; simpl; [done|].
    destruct (decide (k = k')) as [->|Hne]; simpl.
    + rewrite IHd. by rewrite bool_decide_eq_true_2 by apply list_elem_of_here.
    + rewrite IHd. destruct (decide (k' ∈ ks)) as [Hin|Hin].
      * rewrite (bool_decide_eq_true_2 _ Hin).
        by rewrite bool_decide_eq_true_2 by (by apply list_elem_of_further).
      * rewrite (bool_decide_eq_false_2 _ Hin).
        rewrite bool_decide_eq_false_2; [done|].
        intros [?|?]%elem_of_cons; [by subst | done].
Qed.
End PyDictMore.

(** ** Capacity and sizes *)

Lemma length_evict_oldest (c : list (string * entry)) :
  PyDict.wf c → c ≠ [] → S (length (evict_oldest_dict c)) = length c.
Proof.
  intros Hwf Hne.
  destruct (evict_oldest_spec c Hwf Hne) as (b & k & e & a & -> & -> & _).
  rewrite !length_app. simpl. lia.
Qed.

Lemma len_nonempty {V} (d : list (string * V)) : 1 ≤ PyDict.len d → d ≠ [].
Proof. unfold PyDict.len. destruct d; simpl; [lia | done]. Qed.

(** X1. A cache that holds at most [max_size] entries, for a
    [max_size] of at least one, still does after [set], [get],
    [delete] and [clear]; none of them changes [max_size]. *)
Theorem capacity_is_kept (self : CacheService) (now : Z) (key : string)
    (v : pyobj) (ttl_arg : option Z) :
  PyDict.wf (cache self) →
  1 ≤ max_size self →
  PyDict.len (cache self) ≤ max_size self →
  ∀ after,
    after = (CacheService.set now key v ttl_arg self).2
    ∨ after = (CacheService.get now key self).2
    ∨ after = (CacheService.delete key self).2
    ∨ after = (CacheService.clear self).2 →
    PyDict.len (cache after) ≤ max_size after ∧ max_size after = max_size self.
Proof.
  intros Hwf Hmax Hlen after. unfold PyDict.len in *.
  intros [->|[->|[->| ->]]].
  - rewrite set_cases. simpl.
    pose proof (length_setitem_le key
      (Entry v now (now + timedelta_seconds (int_or ttl_arg (ttl self))) 0)) as Hset.
    destruct (expiry_overflows now (int_or ttl_arg (ttl self))); simpl;
      unfold PyDict.len; (split; [|done]);
      destruct (Z.leb_spec (max_size self) (Z.of_nat (length (cache self))))
        as [Hfull|Hroom].
    + assert (Hne : cache self ≠ []) by (apply len_nonempty; unfold PyDict.len; lia).
      pose proof (length_evict_oldest _ Hwf Hne). lia.
    + lia.
    + assert (Hne : cache self ≠ []) by (apply len_nonempty; unfold PyDict.len; lia).
      pose proof (length_evict_oldest _ Hwf Hne).
      specialize (Hset (evict_oldest_dict (cache self))). lia.
    + specialize (Hset (cache self)). lia.
  - destruct (PyDict.lookup key (cache self)) as [e|] eqn:H.
    + destruct (Z.ltb_spec (expires_at e) now).
      * rewrite (get_expired _ _ _ e) by done. simpl. split; [|done].
        pose proof (length_delitem_le key (cache self)). lia.
      * rewrite (get_live _ _ _ e) by done. simpl. split; [|done].
        rewrite length_setitem_present; [lia | by rewrite H].
    + rewrite get_missing by done. done.
  - unfold CacheService.delete. run_state.
    destruct (PyDict.mem key (cache self)); simpl; [|done]. split; [|done].
    pose proof (length_delitem_le key (cache self)). lia.
  - unfold CacheService.clear. run_state. split; [lia | done].
Qed.

Lemma capacity_is_kept_witness :
  PyDict.len (cache (CacheService.set 2 "k3" (int_value 3) None full_cache).2)
  ≤ max_size (CacheService.set 2 "k3" (int_value 3) None full_cache).2.
Proof.
  refine (proj1 (capacity_is_kept full_cache 2 "k3" (int_value 3) None _ _ _ _
                   (or_introl eq_refl))).
  - apply (bool_decide_unpack _). vm_compute. exact I.
  - vm_compute. discriminate.
  - vm_compute. discriminate.
Defined.

(** X2. A [set] that returns [True] for a key that is not stored adds
    one entry while fewer than [max_size] are stored or the cache is
    empty, and keeps the number of entries when [max_size] or more are
    stored in a cache that is not empty: one entry leaves for the one
    that comes, so a cache above its capacity stays above it.  A [set]
    that returns [False] adds no entry: it keeps the number of entries
    while fewer than [max_size] are stored or the cache is empty, and
    takes one entry away otherwise. *)
Theorem set_new_key_size (self : CacheService) (now : Z) (key : string)
    (v : pyobj) (ttl_arg : option Z) :
  PyDict.wf (cache self) →
  PyDict.lookup key (cache self) = None →
  let result := (CacheService.set now key v ttl_arg self).1 in
  let after := (CacheService.set now key v ttl_arg self).2 in
  (result = true →
     (PyDict.len (cache self) < max_size self ∨ cache self = [] →
        PyDict.len (cache after) = PyDict.len (cache self) + 1)
     ∧ (max_size self ≤ PyDict.len (cache self) → cache self ≠ [] →
        PyDict.len (cache after) = PyDict.len (cache self)))
  ∧ (result = false →
     (PyDict.len (cache self) < max_size self ∨ cache self = [] →
        PyDict.len (cache after) = PyDict.len (cache self))
     ∧ (max_size self ≤ PyDict.len (cache self) → cache self ≠ [] →
        PyDict.len (cache after) = PyDict.len (cache self) - 1)).
Proof.
  intros Hwf Hnew result after. unfold result, after. rewrite set_cases. simpl.
  destruct (expiry_overflows now (int_or ttl_arg (ttl self))); simpl;
    (split; [intros Hres|intros Hres]); try discriminate; unfold PyDict.len.
  { split.
    - intros [Hroom|Hempty].
      + by rewrite (proj2 (Z.leb_gt _ _) Hroom).
      + rewrite Hempty. simpl. by destruct (max_size self <=? Z.of_nat 0).
    - intros Hfull Hne. rewrite (proj2 (Z.leb_le _ _) Hfull).
      pose proof (length_evict_oldest _ Hwf Hne) as Hev. lia. }
  split.
  - intros [Hroom|Hempty].
    + rewrite (proj2 (Z.leb_gt _ _) Hroom).
      rewrite length_setitem_absent by done. lia.
    + rewrite Hempty. simpl. by destruct (max_size self <=? Z.of_nat 0).
  - intros Hfull Hne. rewrite (proj2 (Z.leb_le _ _) Hfull).
    pose proof (length_evict_oldest _ Hwf Hne) as Hev.
    rewrite length_setitem_absent; [lia|].
    destruct (evict_oldest_spec _ Hwf Hne) as (b & k & e & a & Hc & -> & _).
    apply lookup_None_keys. intros Hin.
    apply (proj1 (lookup_None_keys key (cache self)) Hnew).
    rewrite Hc. unfold PyDict.keys in *. rewrite fmap_app in Hin.
    rewrite fmap_app, fmap_cons. apply elem_of_app.
    apply elem_of_app in Hin as [Hin|Hin]; [by left | right].
    by apply list_elem_of_further.
Qed.

Lemma set_new_key_size_witness :
  PyDict.len (cache (CacheService.set 2 "k3" (int_value 3) None full_cache).2)
  = PyDict.len (cache full_cache)
  ∧ PyDict.len
      (cache (CacheService.set 2 "k3" (int_value 3) (Some 1000000000000) full_cache).2)
    = PyDict.len (cache full_cache) - 1.
Proof.
  split.
  - refine (proj2 (proj1 (set_new_key_size full_cache 2 "k3" (int_value 3) None _ _) _)
              _ _).
    + apply (bool_decide_unpack _). vm_compute. exact I.
    + reflexivity.
    + reflexivity.
    + vm_compute. discriminate.
    + discriminate.
  - refine (proj2 (proj2 (set_new_key_size full_cache 2 "k3" (int_value 3)
                            (Some 1000000000000) _ _) _) _ _).
    + apply (bool_decide_unpack _). vm_compute. exact I.
    + reflexivity.
    + reflexivity.
    + vm_compute. discriminate.
    + discriminate.
Defined.

(** ** Edge cases of the time to live *)

(** X3. A [set] without a time to live, or with the time to live 0,
    that returns [True] has used the default of the instance.  A [set]
    with a negative time to live that returns [True] has stored an
    entry that has already expired: a [get] at that instant or later
    returns [None] and removes it.  A [set] at a clock reading whose
    expiry is not a [datetime] returns [False] and writes no entry:
    what the cache holds after it, it held before. *)
Theorem set_ttl_edge_cases (self : CacheService) (now : Z) (key : string)
    (v : pyobj) :
  (∀ ttl_arg, ttl_arg = None ∨ ttl_arg = Some 0 →
     (CacheService.set now key v ttl_arg self).1 = true →
     PyDict.lookup key (cache (CacheService.set now key v ttl_arg self).2)
     = Some (Entry v now (now + timedelta_seconds (ttl self)) 0))
  ∧ (∀ t later, t < 0 → now ≤ later →
       (CacheService.set now key v (Some t) self).1 = true →
       let stored := (CacheService.set now key v (Some t) self).2 in
       (CacheService.get later key stored).1 = py_None
       ∧ PyDict.lookup key (cache (CacheService.get later key stored).2) = None)
  ∧ (∀ ttl_arg, clock_reading now = true →
       ¬ (datetime_min ≤ now + timedelta_seconds (int_or ttl_arg (ttl self))
          ≤ datetime_max) →
       (CacheService.set now key v ttl_arg self).1 = false
       ∧ ∀ k e,
           PyDict.lookup k (cache (CacheService.set now key v ttl_arg self).2) = Some e →
           PyDict.lookup k (cache self) = Some e).
Proof.
  split; [|split].
  - intros ttl_arg Harg Hok. rewrite set_returns in Hok.
    apply negb_true_iff in Hok. rewrite set_unfold by done.
    destruct Harg as [-> | ->]; simpl; apply lookup_setitem_eq.
  - intros t later Ht Hlater Hok stored.
    rewrite set_returns in Hok. apply negb_true_iff in Hok.
    assert (Hstored : PyDict.lookup key (cache stored)
                      = Some (Entry v now (now + timedelta_seconds t) 0)).
    { unfold stored. rewrite set_unfold by done. simpl. rewrite lookup_setitem_eq.
      by rewrite (proj2 (Z.eqb_neq t 0)) by lia. }
    rewrite (get_expired later key stored _ Hstored).
    + simpl. split; [done | apply lookup_delitem_eq].
    + simpl. unfold timedelta_seconds. lia.
  - intros ttl_arg. apply set_out_of_range.
Qed.

Lemma set_ttl_edge_cases_witness :
  PyDict.lookup "k"
    (cache (CacheService.set 5 "k" (int_value 1) (Some 0) (new_CacheService None None)).2)
  = Some (Entry (int_value 1) 5 3600000005 0)
  ∧ (CacheService.get 5 "k"
       (CacheService.set 5 "k" (int_value 1) (Some (-1)) (new_CacheService None None)).2).1
    = py_None
  ∧ (CacheService.set 5 "k" (int_value 1) (Some (-1000000000000))
       (new_CacheService None None)).1
    = false.
Proof.
  split; [|split].
  - apply (proj1 (set_ttl_edge_cases (new_CacheService None None) 5 "k" (int_value 1))
             (Some 0)); [by right | reflexivity].
  - apply (proj1 (proj2 (set_ttl_edge_cases (new_CacheService None None) 5 "k"
                           (int_value 1))) (-1) 5); [lia | lia | reflexivity].
  - apply (proj2 (proj2 (set_ttl_edge_cases (new_CacheService None None) 5 "k"
                           (int_value 1))) (Some (-1000000000000))).
    + reflexivity.
    + vm_compute. intros [H _]. by apply H.
Defined.

(** ** [exists], [delete] and the statistics *)

(** X4. On a stored entry that has not expired, [exists] answers
    whether the stored value is not [None], and counts as a hit: a key
    that stores [None] is reported as not existing.  On an expired or
    missing key it answers [False]. *)
Theorem exists_is_a_counted_get (self : CacheService) (now : Z) (key : string) :
  (∀ e, PyDict.lookup key (cache self) = Some e → now ≤ expires_at e →
     (CacheService.exists_ now key self).1 = is_not_None (value e)
     ∧ PyDict.lookup key (cache (CacheService.exists_ now key self).2)
       = Some (Entry (value e) (created_at e) (expires_at e) (hits e + 1))
     ∧ (value e = py_None → (CacheService.exists_ now key self).1 = false))
  ∧ (∀ e, PyDict.lookup key (cache self) = Some e → expires_at e < now →
     (CacheService.exists_ now key self).1 = false)
  ∧ (PyDict.lookup key (cache self) = None →
     CacheService.exists_ now key self = (false, self)).
Proof.
  unfold CacheService.exists_. run_state. split; [|split].
  - intros e H Hlive. rewrite (get_live _ _ _ e) by done. simpl.
    split; [done|]. split; [apply lookup_setitem_eq|]. by intros ->.
  - intros e H Hdead. by rewrite (get_expired _ _ _ e).
  - intros H. by rewrite get_missing.
Qed.

Lemma exists_is_a_counted_get_witness :
  (CacheService.exists_ 3 "k"
     (CacheService.set 0 "k" py_None (Some 1) (new_CacheService None None)).2).1
  = false.
Proof.
  refine (proj2 (proj2 (proj1 (exists_is_a_counted_get _ 3 "k")
            (Entry py_None 0 1000000 0) _ _)) _).
  - reflexivity.
  - simpl. lia.
  - reflexivity.
Defined.

(** X5. [delete] of a key that is not stored returns [False] and
    changes nothing.  [delete] of a stored key returns [True] and
    removes that entry alone: the key is gone, one entry fewer is
    stored, and every other key reads as before. *)
Theorem delete_removes_one_key (self : CacheService) (key : string) :
  (PyDict.lookup key (cache self) = None →
     CacheService.delete key self = (false, self))
  ∧ (∀ e, PyDict.wf (cache self) → PyDict.lookup key (cache self) = Some e →
     let after := (CacheService.delete key self).2 in
     (CacheService.delete key self).1 = true
     ∧ PyDict.lookup key (cache after) = None
     ∧ PyDict.len (cache after) = PyDict.len (cache self) - 1
     ∧ ∀ k, k ≠ key → PyDict.lookup k (cache after) = PyDict.lookup k (cache self)).
Proof.
  unfold CacheService.delete, PyDict.mem. run_state. split.
  - by intros ->.
  - intros e Hwf H. rewrite H. simpl. split; [done|].
    split; [apply lookup_delitem_eq|]. split.
    + destruct (delitem_split key e _ Hwf H) as (b & a & Hc & ->).
      unfold PyDict.len. rewrite Hc, !length_app. simpl. lia.
    + intros k Hk. by apply lookup_delitem_ne.
Qed.

Lemma delete_removes_one_key_witness :
  (CacheService.delete "k1" full_cache).1 = true
  ∧ PyDict.keys (cache (CacheService.delete "k1" full_cache).2) = ["k2"]
  ∧ CacheService.delete "k9" full_cache = (false, full_cache).
Proof.
  split; [|split].
  - refine (proj1 (proj2 (delete_removes_one_key full_cache "k1")
              (Entry (int_value 1) 0 1000000 0) _ _)).
    + apply (bool_decide_unpack _). vm_compute. exact I.
    + reflexivity.
  - reflexivity.
  - apply (proj1 (delete_removes_one_key full_cache "k9")). reflexivity.
Defined.

Lemma total_hits_app (c1 c2 : list (string * entry)) :
  total_hits (c1 ++ c2) = total_hits c1 + total_hits c2.
Proof.
  unfold total_hits. induction c1 as [|kv c1 IH]; simpl; [done|]. rewrite IH. lia.
Qed.

(** X6. In the statistics, a [get] that hits adds exactly one to
    [total_hits] and leaves [size] and [keys] as they were; a [get]
    that finds its entry expired takes one from [size] and the hits of
    that entry from [total_hits]. *)
Theorem get_stats_after_get (self : CacheService) (now : Z) (key : string)
    (e : entry) :
  PyDict.lookup key (cache self) = Some e →
  let before := (get_stats self).1 in
  let after := (get_stats (CacheService.get now key self).2).1 in
  (now ≤ expires_at e →
     stats_total_hits after = stats_total_hits before + 1
     ∧ stats_size after = stats_size before
     ∧ stats_keys after = stats_keys before)
  ∧ (expires_at e < now → PyDict.wf (cache self) →
     stats_total_hits after = stats_total_hits before - hits e
     ∧ stats_size after = stats_size before - 1).
Proof.
  intros H before after. unfold before, after, get_stats. run_state. split.
  - intros Hlive. rewrite (get_live _ _ _ e) by done. simpl.
    destruct (setitem_present_split key e _ H) as (b & a & Hc & Hset).
    rewrite Hset, Hc.
    unfold PyDict.len, PyDict.keys.
    rewrite !total_hits_app, !length_app, !fmap_app. simpl.
    unfold total_hits. simpl. split; [lia | done].
  - intros Hdead Hwf. rewrite (get_expired _ _ _ e) by done. simpl.
    destruct (delitem_split key e _ Hwf H) as (b & a & Hc & ->).
    rewrite Hc. unfold PyDict.len.
    rewrite !total_hits_app, !length_app. simpl.
    unfold total_hits. simpl. lia.
Qed.

Lemma get_stats_after_get_witness :
  stats_total_hits (get_stats (CacheService.get 5 "k1" full_cache).2).1
  = stats_total_hits (get_stats full_cache).1 + 1.
Proof.
  refine (proj1 (proj1 (get_stats_after_get full_cache 5 "k1"
             (Entry (int_value 1) 0 1000000 0) _) _)).
  - reflexivity.
  - simpl. lia.
Defined.

(** X7. As long as the entry has not expired, each [get] of its key
    adds one hit: after a run of such calls the entry has its value,
    creation time and expiry unchanged and as many more hits as there
    were calls. *)
Theorem hits_count_the_gets (self : CacheService) (key : string) (e : entry)
    (instants : list Z) :
  PyDict.lookup key (cache self) = Some e →
  Forall (fun now => now ≤ expires_at e) instants →
  PyDict.lookup key (cache (gets_in_a_row key instants self))
  = Some (Entry (value e) (created_at e) (expires_at e)
            (hits e + Z.of_nat (length instants))).
Proof.
  intros H Hall. revert self e H Hall.
  induction instants as [|now rest IH]; intros self e H Hall; simpl.
  - rewrite H. destruct e. simpl. do 2 f_equal. lia.
  - apply Forall_cons in Hall as [Hnow Hrest].
    rewrite (IH _ (hit e)); simpl.
    + do 2 f_equal. lia.
    + rewrite (get_live _ _ _ e) by done. simpl. apply lookup_setitem_eq.
    + done.
Qed.

Lemma hits_count_the_gets_witness :
  hits <$> PyDict.lookup "k1" (cache (gets_in_a_row "k1" [1; 2; 3] full_cache))
  = Some 3.
Proof.
  rewrite (hits_count_the_gets full_cache "k1" (Entry (int_value 1) 0 1000000 0)).
  - reflexivity.
  - reflexivity.
  - repeat constructor; simpl; lia.
Defined.

(** ** Eviction and access *)

Lemma py_min_from_ext {A} (f g : A → Z) (best : A) (xs : list A) :
  (∀ x, f x = g x) → py_min_from f best xs = py_min_from g best xs.
Proof.
  intros Hfg. revert best. induction xs as [|x xs IH]; intros best; simpl; [done|].
  by rewrite !Hfg, IH.
Qed.

Lemma keys_setitem_congr {V} (k : string) (v : V) (d1 d2 : list (string * V)) :
  PyDict.keys d1 = PyDict.keys d2 →
  PyDict.keys (PyDict.setitem k v d1) = PyDict.keys (PyDict.setitem k v d2).
Proof.
  intros Hkeys. destruct (PyDict.lookup k d1) eqn:H1.
  - assert (H2 : PyDict.lookup k d2 ≠ None).
    { rewrite lookup_None_keys, <- Hkeys, <- lookup_None_keys. by rewrite H1. }
    rewrite !keys_setitem_present; [done.. | by rewrite H1].
  - assert (H2 : PyDict.lookup k d2 = None).
    { by rewrite lookup_None_keys, <- Hkeys, <- lookup_None_keys. }
    rewrite !setitem_absent by done. unfold PyDict.keys in *.
    by rewrite !map_app, Hkeys.
Qed.

(** X8. Eviction goes by creation time alone: reading an entry does not
    keep it in the cache.  Whether or not a stored key was read before
    a [set], the same keys are in the cache after the [set], in the
    same order. *)
Theorem hit_does_not_delay_eviction (self : CacheService) (t1 t2 : Z)
    (key new_key : string) (v : pyobj) (ttl_arg : option Z) (e : entry) :
  PyDict.lookup key (cache self) = Some e →
  t1 ≤ expires_at e →
  PyDict.keys
    (cache (CacheService.set t2 new_key v ttl_arg (CacheService.get t1 key self).2).2)
  = PyDict.keys (cache (CacheService.set t2 new_key v ttl_arg self).2).
Proof.
  intros H Hlive. rewrite (get_live _ _ _ e) by done. rewrite !set_cases. simpl.
  set (read := PyDict.setitem key (hit e) (cache self)).
  assert (Hkeys : PyDict.keys read = PyDict.keys (cache self)).
  { apply keys_setitem_present. by rewrite H. }
  assert (Hlen : PyDict.len read = PyDict.len (cache self)).
  { unfold PyDict.len. by rewrite <- !length_keys, Hkeys. }
  assert (Hcreated : ∀ k, created_of read k = created_of (cache self) k).
  { intros k. unfold created_of, read. destruct (decide (key = k)) as [<-|Hne].
    - by rewrite lookup_setitem_eq, H.
    - by rewrite lookup_setitem_ne. }
  rewrite Hlen.
  assert (Hroom : PyDict.keys (if max_size self <=? PyDict.len (cache self)
                               then evict_oldest_dict read else read)
                  = PyDict.keys (if max_size self <=? PyDict.len (cache self)
                                 then evict_oldest_dict (cache self) else cache self)).
  { destruct (max_size self <=? PyDict.len (cache self)); [|done].
    unfold evict_oldest_dict. rewrite Hkeys.
    destruct (PyDict.keys (cache self)) as [|k0 ks] eqn:Hks; simpl.
    - by rewrite Hkeys, Hks.
    - rewrite (py_min_from_ext _ _ k0 ks Hcreated).
      by rewrite !keys_delitem, Hkeys, Hks. }
  destruct (expiry_overflows t2 (int_or ttl_arg (ttl self))); simpl;
    [done | by apply keys_setitem_congr].
Qed.

Lemma hit_does_not_delay_eviction_witness :
  PyDict.keys
    (cache (CacheService.set 3 "k3" (int_value 3) None
              (CacheService.get 2 "k1" full_cache).2).2)
  = PyDict.keys (cache (CacheService.set 3 "k3" (int_value 3) None full_cache).2).
Proof.
  apply (hit_does_not_delay_eviction full_cache 2 3 "k1" "k3" (int_value 3) None
           (Entry (int_value 1) 0 1000000 0)).
  - reflexivity.
  - simpl. lia.
Defined.

(** ** Loading *)

(** What [load_from_disk] makes of a file that exists. *)
Lemma load_unfold (self : CacheService) (disk : CacheService.Disk)
    (name : string) (now : Z) (saved : list (string * entry)) :
  disk !! name = Some saved → PyDict.wf saved →
  CacheService.load_from_disk now name disk self
  = (true,
     with_cache (List.filter (fun kv => negb (expires_at kv.2 <? now)) saved) self).
Proof.
  unfold CacheService.load_from_disk.
  intros -> Hwf. run_state. f_equal. unfold with_cache. simpl. f_equal.
  rewrite foldl_delitem_filter. apply List.filter_ext_in.
  intros [k e] Hin%list_elem_of_In. simpl. f_equal.
  destruct (Z.ltb_spec (expires_at e) now) as [Hlt|Hge].
  - apply bool_decide_eq_true_2, elem_of_expired_keys. by exists e.
  - apply bool_decide_eq_false_2. intros (e' & Hin' & Hlt)%elem_of_expired_keys.
    apply (elem_lookup_Some _ _ _ Hwf) in Hin, Hin'. rewrite Hin in Hin'.
    injection Hin' as ->. lia.
Qed.

(** X9. [load_from_disk] of a file that does not exist returns [False]
    and leaves the instance as it is.  Otherwise it returns [True] and
    the cache becomes the saved entries that have not expired, in their
    saved order and with their saved hit counts and times; what the
    instance held before is dropped and its capacity is not
    consulted. *)
Theorem load_from_disk_result (self : CacheService) (disk : CacheService.Disk)
    (name : string) (now : Z) :
  (disk !! name = None →
     CacheService.load_from_disk now name disk self = (false, self))
  ∧ (∀ saved, disk !! name = Some saved → PyDict.wf saved →
     CacheService.load_from_disk now name disk self
     = (true,
        with_cache (List.filter (fun kv => negb (expires_at kv.2 <? now)) saved)
          self)).
Proof.
  split.
  - unfold CacheService.load_from_disk. by intros ->.
  - intros saved. apply load_unfold.
Qed.

Lemma load_from_disk_result_witness :
  PyDict.keys
    (cache (CacheService.load_from_disk 50000000 "snapshot"
              {[ "snapshot" := cache two_entry_cache ]} full_cache).2)
  = ["long"].
Proof.
  rewrite (proj2 (load_from_disk_result full_cache
                    {[ "snapshot" := cache two_entry_cache ]} "snapshot" 50000000)
             (cache two_entry_cache)).
  - reflexivity.
  - reflexivity.
  - apply (bool_decide_unpack _). vm_compute. exact I.
Defined.

(** ** Identifiers *)

Lemma string_length_app (a b : string) :
  String.length (a +:+ b) = (String.length a + String.length b)%nat.
Proof. induction a as [|c a IH]; simpl; [done|]. by rewrite IH. Qed.

Lemma list_ascii_app (a b : string) :
  list_ascii_of_string (a +:+ b)
  = list_ascii_of_string a ++ list_ascii_of_string b.
Proof. induction a as [|c a IH]; simpl; [done|]. by rewrite IH. Qed.

Lemma hex_digit_is_hex (n : Z) : is_hex_digit (PyStr.hex_digit (Z.land n 15)) = true.
Proof.
  change 15 with (Z.ones 4). rewrite Z.land_ones by done.
  pose proof (Z.mod_pos_bound n (2 ^ 4) eq_refl) as Hd.
  set (d := n mod 2 ^ 4) in *.
  assert (Hcases : d = 0 ∨ d = 1 ∨ d = 2 ∨ d = 3 ∨ d = 4 ∨ d = 5 ∨ d = 6 ∨ d = 7
                   ∨ d = 8 ∨ d = 9 ∨ d = 10 ∨ d = 11 ∨ d = 12 ∨ d = 13 ∨ d = 14
                   ∨ d = 15) by lia.
  clearbody d.
  repeat (destruct Hcases as [->|Hcases]; [reflexivity|]). by subst d.
Qed.

Lemma hex_format (width : nat) (n : Z) :
  String.length (PyStr.hex width n) = width
  ∧ Forall (fun c => is_hex_digit c = true) (list_ascii_of_string (PyStr.hex width n)).
Proof.
  revert n. induction width as [|w IH]; intros n; simpl; [by split|].
  destruct (IH (Z.shiftr n 4)) as [Hlen Hall].
  rewrite string_length_app, list_ascii_app, Hlen. simpl. split; [lia|].
  apply Forall_app. split; [done|]. apply Forall_singleton, hex_digit_is_hex.
Qed.

Lemma string_app_empty (a : string) : a +:+ EmptyString = a.
Proof.
  induction a as [|c a IH]; [done|].
  change (String c (a +:+ EmptyString) = String c a). by rewrite IH.
Qed.

Lemma concat_empty_cons (x : string) (xs : list string) :
  String.concat EmptyString (x :: xs) = x +:+ String.concat EmptyString xs.
Proof. destruct xs; [symmetry; apply string_app_empty | reflexivity]. Qed.

Lemma concat_hex_format (ws : list Z) :
  String.length (String.concat EmptyString (map (PyStr.hex 8) ws))
  = (8 * length ws)%nat
  ∧ Forall (fun c => is_hex_digit c = true)
      (list_ascii_of_string (String.concat EmptyString (map (PyStr.hex 8) ws))).
Proof.
  induction ws as [|w ws [IHlen IHall]]; [by split|].
  rewrite map_cons, concat_empty_cons, string_length_app, list_ascii_app.
  destruct (hex_format 8 w) as [Hlen Hall]. rewrite Hlen, IHlen.
  split; [simpl; lia|]. by apply Forall_app.
Qed.

Lemma hexdigest_format (msg : list Z) :
  String.length (Sha256.hexdigest msg) = 64%nat
  ∧ Forall (fun c => is_hex_digit c = true)
      (list_ascii_of_string (Sha256.hexdigest msg)).
Proof. unfold Sha256.hexdigest. apply concat_hex_format. Qed.

(** X11. Every identifier that [generate_unique_id] or
    [generate_query_id] returns is a text of 64 characters, each one of
    [0-9a-f], whatever the data. *)
Theorem ids_are_64_hex_digits :
  (∀ data,
     String.length (generate_unique_id data) = 64%nat
     ∧ Forall (fun c => is_hex_digit c = true)
         (list_ascii_of_string (generate_unique_id data)))
  ∧ (∀ content,
     String.length (generate_query_id content) = 64%nat
     ∧ Forall (fun c => is_hex_digit c = true)
         (list_ascii_of_string (generate_query_id content))).
Proof. split; intros; apply hexdigest_format. Qed.

(** *** Sorted keys *)

Section SortedItems.
Implicit Types (kv : string * scalar) (items : list (string * scalar)).

Local Instance by_key_trans : Transitive by_key.
Proof. intros a b c Hab Hbc. unfold by_key in *. by etrans. Qed.

Lemma insert_item_perm kv items : Json.insert_item kv items ≡ₚ kv :: items.
Proof.
  induction items as [|kv' items IH]; simpl; [done|].
  destruct (String.leb kv.1 kv'.1); [done|].
  rewrite IH. apply Permutation_swap.
Qed.

Lemma sort_items_perm items : Json.sort_items items ≡ₚ items.
Proof.
  unfold Json.sort_items. induction items as [|kv items IH]; simpl; [done|].
  by rewrite insert_item_perm, IH.
Qed.

Lemma insert_item_sorted kv items :
  Sorted by_key items → Sorted by_key (Json.insert_item kv items).
Proof.
  induction items as [|kv' items IH]; intros Hs; simpl.
  - by repeat constructor.
  - destruct (String.leb kv.1 kv'.1) eqn:Hle.
    + constructor; [done|]. constructor. unfold by_key, String.le. by rewrite Hle.
    + apply Sorted_inv in Hs as [Hs Hhd]. constructor; [by apply IH|].
      assert (Hge : by_key kv' kv).
      { unfold by_key. destruct (total String.le kv'.1 kv.1) as [?|Hc]; [done|].
        unfold String.le in Hc. by rewrite Hle in Hc. }
      destruct items as [|kv'' items]; simpl.
      * by constructor.
      * destruct (String.leb kv.1 kv''.1); constructor; [done|].
        by apply HdRel_inv in Hhd.
Qed.

Lemma sort_items_sorted items : Sorted by_key (Json.sort_items items).
Proof.
  unfold Json.sort_items. induction items as [|kv items IH]; simpl.
  - constructor.
  - by apply insert_item_sorted.
Qed.

Lemma sort_items_order items1 items2 :
  PyDict.wf items1 → items1 ≡ₚ items2 →
  Json.sort_items items1 = Json.sort_items items2.
Proof.
  intros Hwf Hperm.
  apply (Sorted_unique_strong by_key); try apply sort_items_sorted.
  - intros [k1 v1] [k2 v2] H1 H2 H12 H21.
    rewrite sort_items_perm in H1. rewrite sort_items_perm, <- Hperm in H2.
    assert (k1 = k2) as <- by (by apply (anti_symm String.le)).
    apply (elem_lookup_Some _ _ _ Hwf) in H1, H2. congruence.
  - by rewrite !sort_items_perm.
Qed.
End SortedItems.

(** X12. The identifier of a [dict] does not depend on the order in
    which its keys were inserted. *)
Theorem generate_unique_id_key_order (items1 items2 : list (string * scalar)) :
  PyDict.wf items1 →
  items1 ≡ₚ items2 →
  generate_unique_id (DDict items1) = generate_unique_id (DDict items2).
Proof.
  intros Hwf Hperm. unfold generate_unique_id, data_str, Json.dumps_sorted.
  by rewrite (sort_items_order items1 items2).
Qed.

Lemma generate_unique_id_key_order_witness :
  generate_unique_id
    (DDict [("item_id", SStr "ITPHC_00001"); ("current_stock", SInt 100)])
  = generate_unique_id
      (DDict [("current_stock", SInt 100); ("item_id", SStr "ITPHC_00001")]).
Proof.
  apply generate_unique_id_key_order.
  - apply (bool_decide_unpack _). vm_compute. exact I.
  - apply Permutation_swap.
Defined.

(** ** Token-set similarity *)

Section Similarity.
Implicit Types (t : string) (A B : gset string).

Lemma similarity_tokens t1 t2 :
  calculate_text_similarity t1 t2
  = if bool_decide (tokens t1 = ∅) || bool_decide (tokens t2 = ∅) then 0%Q
    else ratio (size (tokens t1 ∩ tokens t2)) (size (tokens t1 ∪ tokens t2)).
Proof. reflexivity. Qed.

Lemma pos_of_nat_Z (n : nat) : n ≠ 0%nat → Z.pos (Pos.of_nat n) = Z.of_nat n.
Proof. intros Hn. rewrite <- positive_nat_Z. f_equal. by apply Nat2Pos.id. Qed.

Lemma ratio_bounds (a b : nat) : (a ≤ b)%nat → (0 <= ratio a b)%Q ∧ (ratio a b <= 1)%Q.
Proof.
  intros Hab. unfold ratio, Qle. simpl. split; [lia|].
  destruct (decide (b = 0%nat)) as [->|Hb].
  - simpl. lia.
  - rewrite pos_of_nat_Z by done. lia.
Qed.

Lemma inter_subseteq_union A B : A ∩ B ⊆ A ∪ B.
Proof. intros x [Hx _]%elem_of_intersection. apply elem_of_union. by left. Qed.

Lemma size_inter_le_union A B : (size (A ∩ B) ≤ size (A ∪ B))%nat.
Proof. apply subseteq_size, inter_subseteq_union. Qed.

(** X13. The similarity of two texts lies between 0 and 1. *)
Theorem similarity_between_0_and_1 t1 t2 :
  (0 <= calculate_text_similarity t1 t2)%Q
  ∧ (calculate_text_similarity t1 t2 <= 1)%Q.
Proof.
  rewrite similarity_tokens.
  destruct (bool_decide (tokens t1 = ∅) || bool_decide (tokens t2 = ∅)).
  - split; by unfold Qle.
  - apply ratio_bounds, size_inter_le_union.
Qed.

(** X14. The similarity does not depend on the order of the two texts
    nor on the case of their letters. *)
Theorem similarity_symmetric_and_caseless t1 t2 :
  calculate_text_similarity t1 t2 = calculate_text_similarity t2 t1
  ∧ calculate_text_similarity (PyStr.lower t1) t2 = calculate_text_similarity t1 t2.
Proof.
  split.
  - rewrite !similarity_tokens.
    by rewrite orb_comm, (comm_L (∩) (tokens t1)), (comm_L (∪) (tokens t1)).
  - rewrite !similarity_tokens. unfold tokens. by rewrite lower_idem.
Qed.

(** X15. A text without any token, the empty text or one of white
    space only, has similarity 0 with every text, itself included. *)
Theorem similarity_of_blank_text t1 t2 :
  PyStr.split (PyStr.lower t1) = [] →
  calculate_text_similarity t1 t2 = 0%Q
  ∧ calculate_text_similarity t2 t1 = 0%Q
  ∧ calculate_text_similarity t1 t1 = 0%Q.
Proof.
  intros Hblank.
  assert (Hempty : tokens t1 = ∅) by (unfold tokens; by rewrite Hblank).
  rewrite !similarity_tokens, Hempty.
  rewrite (bool_decide_eq_true_2 (∅ = ∅)) by done. simpl.
  by rewrite orb_true_r.
Qed.

Lemma similarity_of_blank_text_witness :
  calculate_text_similarity "   " "   " = 0%Q.
Proof.
  apply (proj2 (proj2 (similarity_of_blank_text "   " "fever" eq_refl))).
Defined.

(** X16. The similarity of two texts is 1 exactly when they have the
    same set of tokens and that set is not empty: word order,
    repetition, case and the amount of white space do not count. *)
Theorem similarity_is_1_iff_same_tokens t1 t2 :
  (calculate_text_similarity t1 t2 == 1)%Q
  ↔ tokens t1 = tokens t2 ∧ tokens t1 ≠ ∅.
Proof.
  rewrite similarity_tokens. set (A := tokens t1). set (B := tokens t2).
  destruct (decide (A = ∅)) as [HA|HA].
  { rewrite (bool_decide_eq_true_2 _ HA). simpl. split; [by intros [=] | by intros [_ ?]]. }
  destruct (decide (B = ∅)) as [HB|HB].
  { rewrite (bool_decide_eq_true_2 _ HB), orb_true_r. split; [by intros [=]|].
    intros [HAB _]. by rewrite HAB in HA. }
  rewrite (bool_decide_eq_false_2 _ HA), (bool_decide_eq_false_2 _ HB). simpl.
  assert (Hunion : size (A ∪ B) ≠ 0%nat).
  { intros Hzero%size_empty_inv%leibniz_equiv.
    by apply empty_union_L in Hzero as [? _]. }
  unfold ratio, Qeq. simpl. rewrite pos_of_nat_Z by done. split.
  - intros Hsize. split; [|done].
    assert (Heq : A ∩ B = A ∪ B).
    { apply set_subseteq_size_eq; [apply inter_subseteq_union | lia]. }
    apply set_eq. intros x. split; intros Hx.
    + assert (Hu : x ∈ A ∪ B) by (apply elem_of_union; by left).
      rewrite <- Heq in Hu. by apply elem_of_intersection in Hu as [_ ?].
    + assert (Hu : x ∈ A ∪ B) by (apply elem_of_union; by right).
      rewrite <- Heq in Hu. by apply elem_of_intersection in Hu as [? _].
  - intros [HAB _]. rewrite <- HAB.
    rewrite (idemp_L (∩) A), (idemp_L (∪) A). lia.
Qed.
End Similarity.

Lemma similarity_is_1_iff_same_tokens_witness :
  (calculate_text_similarity "Fever  chills" "chills fever FEVER" == 1)%Q.
Proof.
  apply (proj2 (similarity_is_1_iff_same_tokens "Fever  chills" "chills fever FEVER")).
  split; [by vm_compute | by vm_compute].
Defined.

(** ** When a query is new *)

Section NewOrDuplicate.
Implicit Types (w : World) (now : Z) (content : gmap string scalar).

Lemma on_cache_seen {A} (m : State CacheService A) w :
  seen_of (on_cache m w).2 = seen_of w.
Proof. unfold on_cache, seen_of. by destruct (m (cache_service w)). Qed.

Lemma scan_seen_seen now threshold (query_ids similar : list string) w :
  seen_of (scan_seen now threshold query_ids similar w).2 = seen_of w.
Proof.
  revert similar w. induction query_ids as [|query_id rest IH]; intros similar w.
  - done.
  - simpl. unfold mbind, state_bind.
    pose proof (on_cache_seen (CacheService.get now (cache_key query_id)) w) as Hseen.
    destruct (on_cache (CacheService.get now (cache_key query_id)) w) as [cached w'].
    simpl in Hseen. rewrite <- Hseen.
    destruct (truthy cached); [destruct (Qle_bool threshold 0)|]; apply IH.
Qed.

Lemma duplicate_in_memory now content w :
  PyDict.mem (generate_query_id content) (seen_of w) = true →
  (get_or_create_query_id now content w).1 = (generate_query_id content, false)
  ∧ seen_of (get_or_create_query_id now content w).2 = seen_of w.
Proof.
  intros Hmem. rewrite get_or_create_unfold. simpl.
  destruct (is_duplicate_in_memory now _ w Hmem) as [Hdup Hseen].
  by rewrite Hdup.
Qed.

Lemma calls_of_a_seen_content content (instants : list Z) w :
  PyDict.mem (generate_query_id content) (seen_of w) = true →
  (calls_in_a_row content instants w).1
  = repeat (generate_query_id content, false) (length instants).
Proof.
  revert w. induction instants as [|now rest IH]; intros w Hmem; [done|].
  simpl. unfold mbind, state_bind, mret, state_ret.
  destruct (duplicate_in_memory now content w Hmem) as [Hres Hseen].
  destruct (get_or_create_query_id now content w) as [r w'] eqn:Hcall.
  simpl in Hres, Hseen. subst r.
  specialize (IH w'). rewrite Hseen in IH. specialize (IH Hmem).
  destruct (calls_in_a_row content rest w') as [rs w'']. simpl in *. by rewrite IH.
Qed.
End NewOrDuplicate.

(** X17. [get_or_create_query_id] reports a content as new exactly
    when its hash is not in [seen_hashes] and the cache holds no
    unexpired record of it. *)
Theorem new_iff_no_record_and_not_in_memory (w : World)
    (content : gmap string scalar) (now : Z) :
  (get_or_create_query_id now content w).1
  = (generate_query_id content,
     negb (live_record now (cache_of w) (generate_query_id content)
           || PyDict.mem (generate_query_id content) (seen_of w))).
Proof.
  rewrite get_or_create_unfold. simpl. rewrite is_duplicate_unfold. simpl.
  rewrite truthy_get_live. fold (cache_of w).
  by destruct (live_record now (cache_of w) (generate_query_id content)
               || PyDict.mem (generate_query_id content) (seen_of w)).
Qed.

(** X18. No method of the deduplication service takes a hash out of
    [seen_hashes]: a hash that is in it is still in it after
    [get_or_create_query_id], [is_duplicate], [mark_as_seen] and
    [find_similar_queries]. *)
Theorem seen_hashes_only_grow (w : World) (id : string) (now : Z)
    (content : gmap string scalar) (query_id symptoms : string) (t : Z)
    (threshold : Q) :
  PyDict.mem id (seen_of w) = true →
  ∀ after,
    after = (get_or_create_query_id now content w).2
    ∨ after = (is_duplicate now query_id w).2
    ∨ after = (mark_as_seen now query_id t w).2
    ∨ after = (find_similar_queries now symptoms threshold w).2 →
    PyDict.mem id (seen_of after) = true.
Proof.
  intros Hmem.
  assert (Hmark : ∀ q w', PyDict.mem id (seen_of w') = true →
            PyDict.mem id (seen_of (mark_as_seen now q t w').2) = true).
  { intros q w' Hmem'. rewrite mark_as_seen_unfold. unfold seen_of, PyDict.mem in *.
    simpl. destruct (decide (q = id)) as [->|Hne].
    - by rewrite lookup_setitem_eq.
    - by rewrite lookup_setitem_ne. }
  assert (Hcheck : ∀ q, seen_of (is_duplicate now q w).2 = seen_of w).
  { intros q. by rewrite is_duplicate_unfold. }
  intros after [->|[->|[->| ->]]].
  - rewrite get_or_create_unfold. simpl.
    destruct (is_duplicate now (generate_query_id content) w).1 eqn:Hdup; simpl.
    + by rewrite Hcheck.
    + rewrite mark_as_seen_unfold. unfold seen_of, PyDict.mem in *. simpl.
      specialize (Hcheck (generate_query_id content)). unfold seen_of in Hcheck.
      rewrite Hcheck.
      destruct (decide (generate_query_id content = id)) as [->|Hne].
      * by rewrite lookup_setitem_eq.
      * by rewrite lookup_setitem_ne.
  - by rewrite Hcheck.
  - by apply Hmark.
  - unfold find_similar_queries. run_state. by rewrite scan_seen_seen.
Qed.

Lemma seen_hashes_only_grow_witness :
  PyDict.mem (generate_query_id fever_content)
    (seen_of (get_or_create_query_id 9 content_lower fever_world).2) = true.
Proof.
  apply (seen_hashes_only_grow fever_world (generate_query_id fever_content) 9
           content_lower "" "" 0 0%Q).
  - vm_compute. reflexivity.
  - by left.
Defined.

(** X19. When a call reports a content as new, every further call with
    that content, at whatever instants, reports it as a duplicate:
    in a run of calls one after the other only the first can return
    [True]. *)
Theorem only_the_first_call_is_new (w : World) (content : gmap string scalar)
    (now : Z) (instants : list Z) :
  (get_or_create_query_id now content w).1.2 = true →
  (calls_in_a_row content (now :: instants) w).1
  = (generate_query_id content, true)
    :: repeat (generate_query_id content, false) (length instants).
Proof.
  intros Hnew. simpl. unfold mbind, state_bind, mret, state_ret.
  assert (Hmem : PyDict.mem (generate_query_id content)
                   (seen_of (get_or_create_query_id now content w).2) = true).
  { rewrite get_or_create_unfold in Hnew |- *. simpl in *.
    destruct (is_duplicate now (generate_query_id content) w).1; [done|].
    apply mark_as_seen_state. }
  assert (Hid : (get_or_create_query_id now content w).1.1 = generate_query_id content).
  { rewrite get_or_create_unfold. simpl.
    by destruct (is_duplicate now (generate_query_id content) w).1. }
  pose proof (calls_of_a_seen_content content instants _ Hmem) as Hrest.
  destruct (get_or_create_query_id now content w) as [[id new] w'].
  simpl in *. subst id new.
  destruct (calls_in_a_row content instants w') as [rs w'']. simpl in *. by rewrite Hrest.
Qed.

Lemma only_the_first_call_is_new_witness :
  (calls_in_a_row content_lower [0; 1; 90000000000; 90000000001] initial_world).1
  = (generate_query_id content_lower, true)
    :: repeat (generate_query_id content_lower, false) 3.
Proof.
  apply (only_the_first_call_is_new initial_world content_lower 0
           [1; 90000000000; 90000000001]).
  vm_compute. reflexivity.
Defined.

(** ** Concurrent calls *)

Section Interleaving.
Implicit Types (w : World) (content : gmap string scalar) (calls : list call).

(** The two steps of a call, run without another step between them, are
    the call. *)
Lemma two_steps_are_the_call now content w :
  (c ← step_call now content Started; step_call now content c) w
  = (Returned (get_or_create_query_id now content w).1,
     (get_or_create_query_id now content w).2).
Proof.
  unfold step_call, get_or_create_query_id. run_state.
  destruct (is_duplicate now (generate_query_id content) w) as [[|] w1]; simpl.
  - done.
  - by destruct (mark_as_seen now (generate_query_id content) DEDUP_TTL w1) as [[] w2].
Qed.

Lemma run_schedule_app content (s1 s2 : list (nat * Z)) calls w :
  run_schedule content (s1 ++ s2) calls w
  = run_schedule content s2 (run_schedule content s1 calls w).1
      (run_schedule content s1 calls w).2.
Proof.
  revert calls w. induction s1 as [|[i now] s1 IH]; intros calls w; simpl; [done|].
  destruct (calls !! i) as [c|]; [|apply IH].
  unfold mbind, state_bind. destruct (step_call now content c w) as [c' w'].
  apply IH.
Qed.

Lemma run_one_after_the_other content (instants : list Z) (before : list call) w :
  run_schedule content (one_after_the_other (length before) instants)
    (before ++ repeat Started (length instants)) w
  = (before ++ map Returned (calls_in_a_row content instants w).1,
     (calls_in_a_row content instants w).2).
Proof.
  revert before w. induction instants as [|now rest IH]; intros before w.
  { simpl. unfold mret, state_ret. simpl. done. }
  pose proof (two_steps_are_the_call now content w) as Hcall.
  simpl. rewrite list_lookup_middle by done.
  unfold mbind, state_bind in *.
  destruct (step_call now content Started w) as [c w1].
  rewrite insert_app_r_alt by done. rewrite Nat.sub_diag. simpl.
  rewrite list_lookup_middle by done.
  destruct (step_call now content c w1) as [c' w2].
  rewrite insert_app_r_alt by done. rewrite Nat.sub_diag. simpl.
  injection Hcall as -> ->.
  destruct (get_or_create_query_id now content w) as [r w']. simpl.
  specialize (IH (before ++ [Returned r]) w').
  rewrite length_app, Nat.add_1_r, <- app_assoc in IH. simpl in IH.
  rewrite IH. unfold mret, state_ret.
  destruct (calls_in_a_row content rest w') as [rs w'']. simpl.
  by rewrite <- app_assoc.
Qed.

(** A check of a hash that has no record in the cache and is not in
    [seen_hashes] answers "not a duplicate" and changes nothing. *)
Lemma is_duplicate_unseen now query_id w :
  PyDict.lookup (cache_key query_id) (cache_of w) = None →
  PyDict.mem query_id (seen_of w) = false →
  is_duplicate now query_id w = (false, w).
Proof.
  intros Hrecord Hseen. rewrite is_duplicate_unfold. simpl.
  rewrite get_missing by done. simpl. rewrite Hseen. by destruct w.
Qed.

Lemma run_checks content (instants : list Z) (before : list call) w :
  PyDict.lookup (cache_key (generate_query_id content)) (cache_of w) = None →
  PyDict.mem (generate_query_id content) (seen_of w) = false →
  run_schedule content (one_step_each (length before) instants)
    (before ++ repeat Started (length instants)) w
  = (before ++ repeat (Checked false) (length instants), w).
Proof.
  intros Hrecord Hseen. revert before.
  induction instants as [|now rest IH]; intros before; [done|].
  simpl. rewrite list_lookup_middle by done. simpl.
  unfold mbind, state_bind, mret, state_ret.
  rewrite is_duplicate_unseen by done.
  rewrite insert_app_r_alt by done. rewrite Nat.sub_diag. simpl.
  specialize (IH (before ++ [Checked false])).
  rewrite length_app, Nat.add_1_r, <- app_assoc in IH. simpl in IH.
  by rewrite IH, <- app_assoc.
Qed.

Lemma run_marks content (instants : list Z) (before : list call) w :
  (run_schedule content (one_step_each (length before) instants)
     (before ++ repeat (Checked false) (length instants)) w).1
  = before ++ repeat (Returned (generate_query_id content, true)) (length instants).
Proof.
  revert before w. induction instants as [|now rest IH]; intros before w; [done|].
  simpl. rewrite list_lookup_middle by done. simpl.
  unfold mbind, state_bind, mret, state_ret.
  destruct (mark_as_seen now (generate_query_id content) DEDUP_TTL w) as [[] w'].
  rewrite insert_app_r_alt by done. rewrite Nat.sub_diag. simpl.
  specialize (IH (before ++ [Returned (generate_query_id content, true)]) w').
  rewrite length_app, Nat.add_1_r, <- app_assoc in IH. simpl in IH.
  by rewrite IH, <- app_assoc.
Qed.
End Interleaving.




(** X20. No method of the cache, be it [clear], [delete], a [set] that
    evicts, a [get] that drops an expired entry or [load_from_disk],
    makes a query whose hash is in [seen_hashes] new again. *)
Theorem cache_methods_do_not_reset_dedup (w : World)
    (content : gmap string scalar) (now : Z) :
  PyDict.mem (generate_query_id content) (seen_of w) = true →
  ∀ (A : Type) (method : State CacheService A),
    (get_or_create_query_id now content (on_cache method w).2).1
    = (generate_query_id content, false).
Proof.
  intros Hmem A method. apply duplicate_in_memory. by rewrite on_cache_seen.
Qed.

Lemma cache_methods_do_not_reset_dedup_witness :
  (get_or_create_query_id 5 fever_content
     (on_cache CacheService.clear fever_world).2).1
  = (generate_query_id fever_content, false).
Proof.
  apply (cache_methods_do_not_reset_dedup fever_world fever_content 5).
  vm_compute. reflexivity.
Defined.

(** ** What the callers hash and where they store *)

Lemma chat_content_get (user_id message k : string) (d : scalar) :
  k ≠ "user_id" → k ≠ "message" →
  content_get (chat_content user_id message) k d = d.
Proof.
  intros H1 H2. apply content_get_missing. unfold chat_content.
  rewrite lookup_insert_ne by done. by apply lookup_singleton_ne.
Qed.

Lemma chat_content_query_id (user_id message : string) :
  generate_query_id (chat_content user_id message) = generate_query_id ∅.
Proof.
  apply generate_query_id_ext; rewrite chat_content_get by done; done.
Qed.

(** X21. The content that [save_chat_message] hashes has none of the
    four fields that [generate_query_id] reads, so every chat message
    of every user gets the hash of the empty content; once one chat
    message has been reported new, every other one is reported as a
    duplicate. *)
Theorem chat_messages_share_one_query_id :
  (∀ user_id message,
     generate_query_id (chat_content user_id message) = generate_query_id ∅)
  ∧ (∀ (w : World) user1 message1 user2 message2 t1 t2,
       (get_or_create_query_id t1 (chat_content user1 message1) w).1.2 = true →
       (get_or_create_query_id t2 (chat_content user2 message2)
          (get_or_create_query_id t1 (chat_content user1 message1) w).2).1
       = (generate_query_id ∅, false)).
Proof.
  split; [exact chat_content_query_id|].
  intros w user1 message1 user2 message2 t1 t2 Hnew.
  rewrite <- (chat_content_query_id user2 message2).
  apply duplicate_in_memory.
  rewrite (chat_content_query_id user2 message2),
    <- (chat_content_query_id user1 message1).
  rewrite get_or_create_unfold in Hnew |- *. simpl in *.
  destruct (is_duplicate t1 (generate_query_id (chat_content user1 message1)) w).1;
    [done|].
  apply mark_as_seen_state.
Qed.

Lemma chat_messages_share_one_query_id_witness :
  (get_or_create_query_id 7 (chat_content "amina" "what is malaria")
     (get_or_create_query_id 0 (chat_content "bola" "hello") initial_world).2).1
  = (generate_query_id ∅, false).
Proof.
  apply (proj2 chat_messages_share_one_query_id initial_world).
  vm_compute. reflexivity.
Defined.

(** X22. A call for a content that has no record in the cache and no
    hash in [seen_hashes], while the cache is below its capacity,
    returns [True] and adds exactly two things: the record of the hash
    as the last entry of the cache, expiring twenty-four hours later
    and not yet hit, and the hash as the last key of [seen_hashes],
    with the instant of the call. *)
Theorem new_query_adds_record_and_hash (w : World)
    (content : gmap string scalar) (now : Z) :
  let id := generate_query_id content in
  PyDict.lookup (cache_key id) (cache_of w) = None →
  PyDict.lookup id (seen_of w) = None →
  PyDict.len (cache_of w) < max_size (cache_service w) →
  let after := (get_or_create_query_id now content w).2 in
  (get_or_create_query_id now content w).1 = (id, true)
  ∧ cache_of after
    = cache_of w
      ++ [(cache_key id,
           Entry (seen_record now id) now (now + timedelta_seconds DEDUP_TTL) 0)]
  ∧ seen_of after = seen_of w ++ [(id, now)].
Proof.
  intros id Hrecord Hseen Hroom after. unfold after, cache_of, seen_of in *.
  rewrite get_or_create_unfold. fold id. simpl.
  rewrite is_duplicate_unfold. simpl.
  rewrite get_missing by done. simpl.
  unfold seen_of, PyDict.mem. rewrite Hseen. simpl.
  rewrite mark_as_seen_unfold. unfold seen_of. simpl.
  rewrite set_unfold by (apply no_overflow_fixed; unfold DEDUP_TTL; lia).
  simpl. rewrite (proj2 (Z.leb_gt _ _) Hroom).
  rewrite !setitem_absent by done. done.
Qed.

Lemma new_query_adds_record_and_hash_witness :
  seen_of (get_or_create_query_id 4 content_lower fever_world).2
  = seen_of fever_world ++ [(generate_query_id content_lower, 4)].
Proof.
  refine (proj2 (proj2 (new_query_adds_record_and_hash fever_world content_lower 4
                          _ _ _))).
  - vm_compute. reflexivity.
  - vm_compute. reflexivity.
  - vm_compute. reflexivity.
Defined.

Lemma seen_records_keys_differ (a b : string) : cache_key a ≠ triage_result_key b.
Proof.
  intros H. unfold cache_key, triage_result_key in H. simpl in H. discriminate H.
Qed.

Lemma cache_key_inj (a b : string) : cache_key a = cache_key b → a = b.
Proof. intros H. unfold cache_key in H. simpl in H. by injection H. Qed.

(** X23. The records of two different hashes have different cache
    keys, and no record has the key of a triage result: below
    capacity, marking a query as seen leaves the record of every other
    query and every cached triage result as it was. *)
Theorem seen_records_have_their_own_keys :
  (∀ a b, cache_key a = cache_key b → a = b)
  ∧ (∀ a b, cache_key a ≠ triage_result_key b)
  ∧ (∀ (w : World) now a t k,
       (∃ b, k = triage_result_key b ∨ (k = cache_key b ∧ a ≠ b)) →
       PyDict.len (cache_of w) < max_size (cache_service w) →
       PyDict.lookup k (cache_of (mark_as_seen now a t w).2)
       = PyDict.lookup k (cache_of w)).
Proof.
  pose proof cache_key_inj as Hinj. pose proof seen_records_keys_differ as Hother.
  split; [done|]. split; [done|].
  intros w now a t k [b Hk] Hroom. rewrite mark_as_seen_unfold.
  unfold cache_of in *. simpl. rewrite set_cases. simpl.
  rewrite (proj2 (Z.leb_gt _ _) Hroom).
  destruct (expiry_overflows now (if t =? 0 then ttl (cache_service w) else t));
    simpl; [done|].
  apply lookup_setitem_ne.
  destruct Hk as [-> | [-> Hab]]; [apply Hother|].
  intros H. by apply Hab, Hinj.
Qed.

Lemma seen_records_have_their_own_keys_witness :
  PyDict.lookup (triage_result_key "abc")
    (cache_of (mark_as_seen 3 "abc" 86400 fever_world).2)
  = PyDict.lookup (triage_result_key "abc") (cache_of fever_world).
Proof.
  apply (proj2 (proj2 seen_records_have_their_own_keys)).
  - exists "abc". by left.
  - vm_compute. reflexivity.
Defined.

(** ** Translation through the cache *)

Section Translate.
Variable model_loaded : bool.
Variable run_model : string → string → string → option string.
Implicit Types (self : CacheService) (now : Z) (text : string).

Lemma translate_cached self now text source_lang target_lang (e : entry) :
  PyDict.lookup (translate_cache_key text source_lang target_lang) (cache self)
  = Some e →
  now ≤ expires_at e → truthy (value e) = true →
  (translate model_loaded run_model now text source_lang target_lang self).1
  = value e.
Proof.
  intros H Hlive Htruthy. unfold translate. run_state.
  rewrite (get_live _ _ _ e) by done. simpl. by rewrite Htruthy.
Qed.

Lemma translate_miss self now text source_lang target_lang :
  PyDict.lookup (translate_cache_key text source_lang target_lang) (cache self)
  = None →
  translate model_loaded run_model now text source_lang target_lang self
  = if negb model_loaded then (str_value text, self)
    else match run_model text (language_code (PyStr.lower source_lang) "eng_Latn")
                 (language_code (PyStr.lower target_lang) "hau_Latn") with
         | None => (str_value text, self)
         | Some translated =>
             (str_value translated,
              (CacheService.set now
                 (translate_cache_key text source_lang target_lang)
                 (str_value translated) (Some 3600) self).2)
         end.
Proof.
  intros H. unfold translate. run_state. rewrite get_missing by done. simpl.
  destruct (negb model_loaded); [done|].
  destruct (run_model text _ _); [|done].
  by destruct (CacheService.set now _ _ _ self).
Qed.
End Translate.

(** X24. The cache key of [translate] holds only the first 50
    characters of the text.  Once the translation of a text has been
    cached, a call within the hour for any text with the same first 50
    characters and the same two languages returns that cached
    translation, whatever follows the 50 characters and whatever the
    model would give. *)
Theorem translate_serves_texts_by_their_first_50_characters
    (run_model run_model' : string → string → string → option string)
    (model_loaded' : bool) (self : CacheService) (t0 t1 : Z)
    (text text' source_lang target_lang translated : string) :
  String.substring 0 50 text = String.substring 0 50 text' →
  PyDict.lookup (translate_cache_key text source_lang target_lang) (cache self)
  = None →
  run_model text (language_code (PyStr.lower source_lang) "eng_Latn")
    (language_code (PyStr.lower target_lang) "hau_Latn") = Some translated →
  translated ≠ EmptyString →
  t1 ≤ t0 + timedelta_seconds 3600 →
  let first := translate true run_model t0 text source_lang target_lang self in
  first.1 = str_value translated
  ∧ (translate model_loaded' run_model' t1 text' source_lang target_lang first.2).1
    = str_value translated.
Proof.
  intros Hprefix Hmiss Hrun Hne Hlate first.
  assert (Hfirst : first
    = (str_value translated,
       (CacheService.set t0 (translate_cache_key text source_lang target_lang)
          (str_value translated) (Some 3600) self).2)).
  { unfold first. rewrite translate_miss by done. simpl. by rewrite Hrun. }
  rewrite Hfirst. simpl. split; [done|].
  assert (Hkey : translate_cache_key text' source_lang target_lang
                 = translate_cache_key text source_lang target_lang).
  { unfold translate_cache_key. by rewrite Hprefix. }
  apply (translate_cached _ _ _ _ _ _ _
           (Entry (str_value translated) t0 (t0 + timedelta_seconds 3600) 0)).
  - rewrite Hkey, set_unfold by (apply no_overflow_fixed; lia).
    simpl. apply lookup_setitem_eq.
  - done.
  - simpl. by destruct translated.
Qed.

Lemma translate_serves_texts_by_their_first_50_characters_witness :
  let model := fun text _ _ : string =>
    if decide (text = "The patient has had a high fever and chills since Monday")
    then Some "Mara lafiya yana da zazzabi" else None in
  (translate false (fun _ _ _ => None) 10
     "The patient has had a high fever and chills since yesterday; no cough"
     "english" "hausa"
     (translate true model 0
        "The patient has had a high fever and chills since Monday"
        "english" "hausa" (new_CacheService None None)).2).1
  = str_value "Mara lafiya yana da zazzabi".
Proof.
  intros model.
  refine (proj2 (translate_serves_texts_by_their_first_50_characters
            model (fun _ _ _ => None) false (new_CacheService None None) 0 10
            "The patient has had a high fever and chills since Monday"
            "The patient has had a high fever and chills since yesterday; no cough"
            "english" "hausa" "Mara lafiya yana da zazzabi" _ _ _ _ _)).
  - reflexivity.
  - reflexivity.
  - reflexivity.
  - discriminate.
  - vm_compute. discriminate.
Defined.

(** X25. When no translation is cached under the key and the model is
    not loaded, or the model raises, [translate] returns the text it
    was given and stores nothing in the cache. *)
Theorem translate_falls_back_to_the_text
    (model_loaded : bool) (run_model : string → string → string → option string)
    (self : CacheService) (now : Z) (text source_lang target_lang : string) :
  PyDict.lookup (translate_cache_key text source_lang target_lang) (cache self)
  = None →
  model_loaded = false
  ∨ run_model text (language_code (PyStr.lower source_lang) "eng_Latn")
      (language_code (PyStr.lower target_lang) "hau_Latn") = None →
  translate model_loaded run_model now text source_lang target_lang self
  = (str_value text, self).
Proof.
  intros Hmiss Hfail. rewrite translate_miss by done.
  destruct Hfail as [-> | ->]; [done|]. by destruct (negb model_loaded).
Qed.

Lemma translate_falls_back_to_the_text_witness :
  translate false (fun _ _ _ => Some "x") 0 "good morning" "english" "igbo"
    (new_CacheService None None)
  = (str_value "good morning", new_CacheService None None).
Proof.
  apply translate_falls_back_to_the_text; [reflexivity | by left].
Defined.

(** ** The triage route's use of the two services *)

(** X26. The triage route asks [get_or_create_query_id], computes, and
    caches its response under the triage key for twenty-four hours.
    When the first request of a content was reported new, a second
    request of that content is reported as a duplicate, and its lookup
    of the triage key returns the cached response as long as the
    twenty-four hours have not passed; after them the lookup returns
    [None], so that the route computes again. *)
Theorem triage_second_request_reads_the_cached_response (w : World)
    (content : gmap string scalar) (response : pyobj) (t0 t_cached t1 : Z) :
  (get_or_create_query_id t0 content w).1.2 = true →
  let id := generate_query_id content in
  let asked := (get_or_create_query_id t0 content w).2 in
  let cached :=
    (on_cache (CacheService.set t_cached (triage_result_key id) response (Some 86400))
       asked).2 in
  let second := get_or_create_query_id t1 content cached in
  let read := on_cache (CacheService.get t1 (triage_result_key id)) second.2 in
  second.1 = (id, false)
  ∧ (t1 ≤ t_cached + timedelta_seconds 86400 → read.1 = response)
  ∧ (t_cached + timedelta_seconds 86400 < t1 → read.1 = py_None).
Proof.
  intros Hnew id asked cached second read.
  assert (Hmem : PyDict.mem id (seen_of cached) = true).
  { unfold cached. rewrite on_cache_seen. unfold asked.
    rewrite get_or_create_unfold in Hnew |- *. fold id in Hnew |- *. simpl in *.
    destruct (is_duplicate t0 id w).1; [done|]. apply mark_as_seen_state. }
  destruct (duplicate_in_memory t1 content cached Hmem) as [Hres _].
  split; [done|].
  assert (Hstored : PyDict.lookup (triage_result_key id) (cache_of second.2)
            = Some (Entry response t_cached (t_cached + timedelta_seconds 86400) 0)).
  { unfold second. rewrite get_or_create_unfold. fold id. simpl.
    rewrite (proj1 (is_duplicate_in_memory t1 id cached Hmem)).
    rewrite is_duplicate_unfold. unfold cache_of. simpl.
    rewrite get_frame.
    - unfold cached, on_cache.
      destruct (CacheService.set t_cached (triage_result_key id) response
                  (Some 86400) (cache_service asked)) as [ok c] eqn:Hset.
      simpl. apply (f_equal snd) in Hset. simpl in Hset. subst c.
      rewrite set_unfold by (apply no_overflow_fixed; lia).
      simpl. apply lookup_setitem_eq.
    - apply seen_records_keys_differ. }
  unfold read, on_cache, cache_of in *. split; intros Htime.
  - rewrite (get_live _ _ _ _ Hstored) by done. done.
  - rewrite (get_expired _ _ _ _ Hstored) by done. done.
Qed.

Lemma triage_second_request_reads_the_cached_response_witness :
  let id := generate_query_id content_lower in
  let asked := (get_or_create_query_id 0 content_lower initial_world).2 in
  let cached :=
    (on_cache (CacheService.set 5 (triage_result_key id) (int_value 1) (Some 86400))
       asked).2 in
  (get_or_create_query_id 9 content_lower cached).1 = (id, false).
Proof.
  refine (proj1 (triage_second_request_reads_the_cached_response initial_world
                   content_lower (int_value 1) 0 5 9 _)).
  vm_compute. reflexivity.
Defined.
